(** * BaseBuilder: an immutable builder of tcomb types and form options

    A shallow embedding of [src/BaseBuilder.js].  A builder wraps an
    Immutable.js map ([this._state]); every method returns a fresh builder
    around an updated map, and [getType] / [getOptions] realize the
    accumulated description on demand. *)

From Stdlib Require Import List String Bool Arith Lia ZArith.
Import ListNotations.
Open Scope string_scope.
Open Scope list_scope.

Set Warnings "-register-all".

(** ** JavaScript values *)

(** The values that travel through the options blob.  Plain objects and
    arrays are identified with the Immutable maps and lists that
    [Immutable.fromJS] turns them into (and [toJS] turns back), so both
    conversions are the identity on [jsval].  Functions, classes and class
    instances are left untouched by [fromJS]: they are opaque references.
    The list under [VObj] gives each key once.  Its order stands for the
    order in which the keys are enumerated, which the statements below do
    not rely on: JavaScript lists integer-like keys first, and Immutable
    iterates a map of more than eight entries by hash. *)
Inductive jsval : Type :=
| VUndefined
| VNull
| VBool (b : bool)
| VNum (n : Z)
| VStr (s : string)
| VRef (id : nat)
| VObj (kvs : list (string * jsval))
| VArr (xs : list jsval).

Definition obj := list (string * jsval).

(** JavaScript truthiness, as used by [!x] and [if (x)]. *)
Definition truthy (v : jsval) : bool :=
  match v with
  | VUndefined | VNull => false
  | VBool b => b
  | VNum n => negb (Z.eqb n 0)
  | VStr s => negb (String.eqb s "")
  | VRef _ | VObj _ | VArr _ => true
  end.

(** ** Exceptions and results *)

Inductive exn : Type :=
| JsError (msg : string)      (* throw new Error(msg) *)
| JsTypeError                 (* raised by the engine: calling or reading through a non-object *)
| Thrown (v : jsval).         (* anything else a collaborator throws *)

Inductive result (A : Type) : Type :=
| Ok (a : A)
| Err (e : exn).
Arguments Ok {A} a.
Arguments Err {A} e.

Definition bind {A B} (r : result A) (k : A -> result B) : result B :=
  match r with
  | Ok a => k a
  | Err e => Err e
  end.

Notation "x <- r ;; k" := (bind r (fun x => k))
  (at level 61, r at next level, right associativity).

(** ** Keyed collections *)

(** [Map.get(key)] *)
Fixpoint lookup {V : Type} (k : string) (m : list (string * V)) : option V :=
  match m with
  | [] => None
  | (k', v) :: tl => if String.eqb k k' then Some v else lookup k tl
  end.

(** [Map.has(key)] *)
Definition has_key {V : Type} (k : string) (m : list (string * V)) : bool :=
  match lookup k m with Some _ => true | None => false end.

(** [Map.set(key, value)]: the key is bound to the value, every other key
    keeps its value.  In the list an existing key keeps its position and a
    new one goes last, as in an Immutable map of up to eight entries. *)
Fixpoint map_set {V : Type} (k : string) (v : V) (m : list (string * V))
  : list (string * V) :=
  match m with
  | [] => [(k, v)]
  | (k', v') :: tl =>
      if String.eqb k k' then (k, v) :: tl else (k', v') :: map_set k v tl
  end.

(** [Map.isEmpty()] *)
Definition isEmpty {V : Type} (m : list (string * V)) : bool :=
  match m with [] => true | _ :: _ => false end.

(** [Map.setIn(path, value)] on a map of values: missing intermediate maps
    are created. *)
Fixpoint setIn (path : list string) (v : jsval) (m : obj) : obj :=
  match path with
  | [] => m
  | [k] => map_set k v m
  | k :: rest =>
      let inner := match lookup k m with Some (VObj m') => m' | _ => [] end in
      map_set k (VObj (setIn rest v inner)) m
  end.

(** ** External collaborators *)

(** The code the builder calls but does not define.
    - [maybe] is [tcomb.maybe], the optional wrapper of the type system;
    - [validation] is [validation(type, errorFn, name)] of [./combinators];
    - [combine] is [validators.combine], which turns an array of error
      message functions into one;
    - [mergeIndexed] is what Immutable's [mergeDeep] does when a List is
      involved (List into List, List into Map, Map into List): the policy
      differs between releases of the library, and some releases throw on
      some of these merges.  The model gives such a merge a value; the
      statements below are about values that do not reach it (scalars,
      functions, maps of those), or are relative to the calls
      returning. *)
Class Collaborators : Type := {
  maybe : jsval -> result jsval;
  validation : jsval -> jsval -> jsval -> result jsval;
  combine : list jsval -> jsval;
  mergeIndexed : jsval -> jsval -> jsval
}.

(** [existing.mergeDeep(value)] below one key: two maps are merged key by
    key, scalars and opaque references are replaced by the new value. *)
Fixpoint merge_val `{Collaborators} (existing value : jsval) {struct value} : jsval :=
  match value with
  | VObj n =>
      match existing with
      | VObj m =>
          VObj ((fix merge_into (n : obj) (acc : obj) {struct n} : obj :=
                   match n with
                   | [] => acc
                   | (k, x) :: tl =>
                       merge_into tl
                         (map_set k
                            (match lookup k acc with
                             | Some e => merge_val e x
                             | None => x
                             end) acc)
                   end) n m)
      | VArr _ => mergeIndexed existing value
      | _ => value
      end
  | VArr _ =>
      match existing with
      | VObj _ | VArr _ => mergeIndexed existing value
      | _ => value
      end
  | _ => value
  end.

(** [map.mergeDeep(source)] for two maps. *)
Fixpoint merge_obj `{Collaborators} (m : obj) (n : obj) {struct n} : obj :=
  match n with
  | [] => m
  | (k, x) :: tl =>
      merge_obj
        (map_set k (match lookup k m with
                    | Some e => merge_val e x
                    | None => x
                    end) m) tl
  end.

(** ** The builder state *)

(** A [LazyTemplateProvider] instance: opaque, known by its reference. *)
Definition Provider := nat.

(** [callback(provider)] returns a template factory; [provider] may be
    [null]. *)
Definition templateCallback := option Provider -> result jsval.

(** [typeCombinator(error, subTypes)] returns a tcomb type; a missing
    argument is [undefined]. *)
Definition typeCombinator := jsval -> jsval -> result jsval.

(** [this._state], one field per key of [initialState] (plus the
    [_disableTemplates] key, read with the default [false]).  The [options]
    entry is always a map.  The provider and the two function slots are
    typed as their JSDoc says: [null], or a provider instance, or a
    function, so that being set is being truthy.  [_fieldBuilders] lists
    its entries in insertion order, which is the order Immutable iterates
    them in for up to eight fields (beyond that it goes by hash): what is
    stated about the fields below does not depend on that order. *)
Inductive BaseBuilder : Type := mkBuilder {
  _fieldBuilders : list (string * BaseBuilder);
  _isOptional : bool;
  _templateProviderCallback : option templateCallback;
  _lazyTemplateProvider : option Provider;
  _type : option typeCombinator;
  _disableTemplates : bool;
  options : obj
}.

(** [new BaseBuilder()] *)
Definition initialState : BaseBuilder :=
  {| _fieldBuilders := [];
     _isOptional := false;
     _templateProviderCallback := None;
     _lazyTemplateProvider := None;
     _type := None;
     _disableTemplates := false;
     options := [] |}.

Definition with_options (st : BaseBuilder) (o : obj) : BaseBuilder :=
  {| _fieldBuilders := _fieldBuilders st;
     _isOptional := _isOptional st;
     _templateProviderCallback := _templateProviderCallback st;
     _lazyTemplateProvider := _lazyTemplateProvider st;
     _type := _type st;
     _disableTemplates := _disableTemplates st;
     options := o |}.

Definition with_fieldBuilders (st : BaseBuilder) (fb : list (string * BaseBuilder))
  : BaseBuilder :=
  {| _fieldBuilders := fb;
     _isOptional := _isOptional st;
     _templateProviderCallback := _templateProviderCallback st;
     _lazyTemplateProvider := _lazyTemplateProvider st;
     _type := _type st;
     _disableTemplates := _disableTemplates st;
     options := options st |}.

(** [state.mergeDeep(source)]: every call site passes [{ options: {...} }]
    or the empty object. *)
Definition mergeDeep `{Collaborators} (st : BaseBuilder) (source : obj) : BaseBuilder :=
  match lookup "options" source with
  | Some (VObj o) => with_options st (merge_obj (options st) o)
  | _ => st
  end.

(** [state.updateIn(['options', key], Immutable.List(), arr => arr.push(x))]:
    pushing onto something that is not a list is a TypeError. *)
Definition push_option (st : BaseBuilder) (key : string) (x : jsval)
  : result BaseBuilder :=
  match lookup key (options st) with
  | None => Ok (with_options st (map_set key (VArr [x]) (options st)))
  | Some (VArr arr) => Ok (with_options st (map_set key (VArr (arr ++ [x])) (options st)))
  | Some _ => Err JsTypeError
  end.

(** ** The setters *)

Definition setDisabled `{Collaborators} (this : BaseBuilder) (disabled : jsval) :=
  mergeDeep this [("options", VObj [("disabled", disabled)])].

Definition setLabel `{Collaborators} (this : BaseBuilder) (label : jsval) :=
  mergeDeep this [("options", VObj [("label", label)])].

Definition setName `{Collaborators} (this : BaseBuilder) (name : jsval) :=
  mergeDeep this [("options", VObj [("name", name)])].

Definition setValue `{Collaborators} (this : BaseBuilder) (value : jsval) :=
  mergeDeep this [("options", VObj [("value", value)])].

Definition setText `{Collaborators} (this : BaseBuilder) (text : jsval) :=
  mergeDeep this [("options", VObj [("text", text)])].

Definition setHelp `{Collaborators} (this : BaseBuilder) (help : jsval) :=
  mergeDeep this [("options", VObj [("help", help)])].

Definition setTemplateFactory `{Collaborators} (this : BaseBuilder) (factory : jsval) :=
  mergeDeep this [("options", VObj [("factory", factory)])].

Definition setLazyTemplateFactory (this : BaseBuilder) (callback : templateCallback) :=
  {| _fieldBuilders := _fieldBuilders this;
     _isOptional := _isOptional this;
     _templateProviderCallback := Some callback;
     _lazyTemplateProvider := _lazyTemplateProvider this;
     _type := _type this;
     _disableTemplates := _disableTemplates this;
     options := options this |}.

Definition setValidationErrorMessageFn `{Collaborators} (this : BaseBuilder) (error : jsval) :=
  mergeDeep this [("options", VObj [("error", error)])].

Definition setTransformer `{Collaborators} (this : BaseBuilder) (transformer : jsval) :=
  mergeDeep this [("options", VObj [("transformer", transformer)])].

Definition addValidationErrorMessageFn `{Collaborators} (this : BaseBuilder) (error : jsval) :=
  let existingError :=
    match lookup "error" (options this) with Some v => v | None => VNull end in
  if negb (truthy existingError) then setValidationErrorMessageFn this error
  else mergeDeep this
         [("options", VObj [("error", combine [existingError; error])])].

Definition msg_field_after_select : string :=
  "Tried to set a field, but a select option was already added. Select options and fields are mutually exclusive.".

Definition msg_select_after_field : string :=
  "Tried to add a select option, but a field was already set. Select options and fields are mutually exclusive.".

Definition msg_no_provider : string :=
  "A template callback function was specified, but no provider was set".

(** [this._state.getIn(['options', 'options'])], [undefined] when missing. *)
Definition select_options_slot (this : BaseBuilder) : jsval :=
  match lookup "options" (options this) with Some v => v | None => VUndefined end.

Definition setField (this : BaseBuilder) (key : string) (fieldBuilder : BaseBuilder)
  : result BaseBuilder :=
  if truthy (select_options_slot this) then Err (JsError msg_field_after_select)
  else push_option
         (with_fieldBuilders this (map_set key fieldBuilder (_fieldBuilders this)))
         "order" (VStr key).

Definition setType (this : BaseBuilder) (typeCombinator : typeCombinator) :=
  {| _fieldBuilders := _fieldBuilders this;
     _isOptional := _isOptional this;
     _templateProviderCallback := _templateProviderCallback this;
     _lazyTemplateProvider := _lazyTemplateProvider this;
     _type := Some (fun error subTypes => typeCombinator error subTypes);
     _disableTemplates := _disableTemplates this;
     options := options this |}.

Definition setTypeAndValidate `{Collaborators} (this : BaseBuilder) (type name : jsval) :=
  setType this (fun errorFn _ => validation type errorFn name).

Definition setLazyTemplateProvider (this : BaseBuilder) (provider : Provider) :=
  {| _fieldBuilders := _fieldBuilders this;
     _isOptional := _isOptional this;
     _templateProviderCallback := _templateProviderCallback this;
     _lazyTemplateProvider := Some provider;
     _type := _type this;
     _disableTemplates := _disableTemplates this;
     options := options this |}.

Definition makeOptional (this : BaseBuilder) :=
  {| _fieldBuilders := _fieldBuilders this;
     _isOptional := true;
     _templateProviderCallback := _templateProviderCallback this;
     _lazyTemplateProvider := _lazyTemplateProvider this;
     _type := _type this;
     _disableTemplates := _disableTemplates this;
     options := options this |}.

Definition setPlaceholder `{Collaborators} (this : BaseBuilder) (placeholder : jsval) :=
  mergeDeep this [("options", VObj [("attrs", VObj [("placeholder", placeholder)])])].

Definition setAutoFocus `{Collaborators} (this : BaseBuilder) (autoFocus : jsval) :=
  mergeDeep this [("options", VObj [("attrs", VObj [("autoFocus", autoFocus)])])].

Definition setConfig `{Collaborators} (this : BaseBuilder) (config : jsval) :=
  mergeDeep this [("options", VObj [("config", config)])].

(** The method [_disableTemplates()]; the state key of that name is the
    record field. *)
Definition disableTemplates (this : BaseBuilder) :=
  {| _fieldBuilders := _fieldBuilders this;
     _isOptional := _isOptional this;
     _templateProviderCallback := _templateProviderCallback this;
     _lazyTemplateProvider := _lazyTemplateProvider this;
     _type := _type this;
     _disableTemplates := true;
     options := options this |}.

(** ** Realization *)

(** [this._state.getIn(['options', 'error'])] *)
Definition error_slot (this : BaseBuilder) : jsval :=
  match lookup "error" (options this) with Some v => v | None => VUndefined end.

(** [this._state.get('_type')(error, subTypes)]: calling [null] is a
    TypeError. *)
Definition call_type (this : BaseBuilder) (subTypes : jsval) : result jsval :=
  match _type this with
  | Some f => f (error_slot this) subTypes
  | None => Err JsTypeError
  end.

Fixpoint getType `{Collaborators} (this : BaseBuilder) {struct this} : result jsval :=
  let type :=
    if isEmpty (_fieldBuilders this) then call_type this VUndefined
    else
      subTypes <-
        (fix reduce (entries : list (string * BaseBuilder)) (acc : obj) {struct entries}
           : result obj :=
           match entries with
           | [] => Ok acc
           | (key, field) :: tl =>
               t <- getType field ;; reduce tl (map_set key t acc)
           end) (_fieldBuilders this) [] ;;
      call_type this (VObj subTypes)
  in
  if _isOptional this then t <- type ;; maybe t else type.

(** [config.disableTemplates], defaulting to the builder's own flag. *)
Definition resolve_disableTemplates (this : BaseBuilder) (config : option bool) : bool :=
  match config with Some d => d | None => _disableTemplates this end.

(** [lazyTemplateProvider || this._state.get('_lazyTemplateProvider')] *)
Definition resolve_provider (this : BaseBuilder) (lazyTemplateProvider : option Provider)
  : option Provider :=
  match lazyTemplateProvider with
  | Some p => Some p
  | None => _lazyTemplateProvider this
  end.

Definition is_some {A} (o : option A) : bool :=
  match o with Some _ => true | None => false end.

(** The condition of the [throw] in [getOptions]. *)
Definition missing_provider (this : BaseBuilder) (lazyTemplateProvider : option Provider)
  (config : option bool) : bool :=
  negb (has_key "factory" (options this))
  && is_some (_templateProviderCallback this)
  && negb (is_some (resolve_provider this lazyTemplateProvider))
  && negb (resolve_disableTemplates this config).

(** The last part of [getOptions]: realize the template, merge the
    sub-fields, return the [options] entry. *)
Definition finish_options `{Collaborators} (this : BaseBuilder) (provider : option Provider)
  (disableTemplates : bool) (fields : obj) : result obj :=
  st <- match _templateProviderCallback this with
        | Some templateProviderCallback =>
            if negb (has_key "factory" (options this)) && negb disableTemplates
            then factory <- templateProviderCallback provider ;;
                 Ok (mergeDeep this [("options", VObj [("factory", factory)])])
            else Ok this
        | None => Ok this
        end ;;
  Ok (options (mergeDeep st fields)).

Fixpoint getOptions `{Collaborators} (this : BaseBuilder)
  (lazyTemplateProvider : option Provider) (config : option bool) {struct this}
  : result obj :=
  let disableTemplates := resolve_disableTemplates this config in
  let provider := resolve_provider this lazyTemplateProvider in
  if missing_provider this lazyTemplateProvider config
  then Err (JsError msg_no_provider)
  else
    fields <-
      (fix reduce (entries : list (string * BaseBuilder)) (acc : obj) {struct entries}
         : result obj :=
         match entries with
         | [] => Ok acc
         | (key, field) :: tl =>
             o <- getOptions field provider (Some disableTemplates) ;;
             reduce tl (setIn ["options"; "fields"; key] (VObj o) acc)
         end) (_fieldBuilders this) [] ;;
    finish_options this provider disableTemplates fields.

(** ** Select options *)

Definition addSelectOption `{Collaborators} (this selectBuilder : BaseBuilder)
  : result BaseBuilder :=
  if negb (isEmpty (_fieldBuilders this)) then Err (JsError msg_select_after_field)
  else
    selectOptions <- getOptions selectBuilder None None ;;
    push_option this "options" (VObj selectOptions).

Definition setNullOption `{Collaborators} (this selectBuilder : BaseBuilder)
  : result BaseBuilder :=
  nullOption <- getOptions selectBuilder None None ;;
  Ok (mergeDeep this [("options", VObj [("nullOption", VObj nullOption)])]).

(** ** Method calls *)

(** One call of a state-bearing method, with its arguments; [B] is how a
    builder argument is given (a builder, or a reference to one). *)
Inductive method (B : Type) : Type :=
| SetDisabled (disabled : jsval)
| SetLabel (label : jsval)
| SetName (name : jsval)
| SetValue (value : jsval)
| SetText (text : jsval)
| SetHelp (help : jsval)
| SetTemplateFactory (factory : jsval)
| SetLazyTemplateFactory (callback : templateCallback)
| SetValidationErrorMessageFn (error : jsval)
| SetTransformer (transformer : jsval)
| AddValidationErrorMessageFn (error : jsval)
| SetField (key : string) (fieldBuilder : B)
| AddSelectOption (selectBuilder : B)
| SetType (typeCombinator : typeCombinator)
| SetTypeAndValidate (type name : jsval)
| SetLazyTemplateProvider (provider : Provider)
| MakeOptional
| SetNullOption (selectBuilder : B)
| SetPlaceholder (placeholder : jsval)
| SetAutoFocus (autoFocus : jsval)
| SetConfig (config : jsval)
| DisableTemplates.

Arguments SetField {B}.
Arguments AddSelectOption {B}.
Arguments SetNullOption {B}.
Arguments SetDisabled {B}.
Arguments SetLabel {B}.
Arguments SetName {B}.
Arguments SetValue {B}.
Arguments SetText {B}.
Arguments SetHelp {B}.
Arguments SetTemplateFactory {B}.
Arguments SetLazyTemplateFactory {B}.
Arguments SetValidationErrorMessageFn {B}.
Arguments SetTransformer {B}.
Arguments AddValidationErrorMessageFn {B}.
Arguments SetType {B}.
Arguments SetTypeAndValidate {B}.
Arguments SetLazyTemplateProvider {B}.
Arguments MakeOptional {B}.
Arguments SetPlaceholder {B}.
Arguments SetAutoFocus {B}.
Arguments SetConfig {B}.
Arguments DisableTemplates {B}.

(** The state the new builder is constructed with, or the exception.  The
    plain setters return here for every argument; with a list among the
    values [mergeDeep] may throw in the library (see [mergeIndexed]). *)
Definition invoke `{Collaborators} (this : BaseBuilder) (m : method BaseBuilder)
  : result BaseBuilder :=
  match m with
  | SetDisabled v => Ok (setDisabled this v)
  | SetLabel v => Ok (setLabel this v)
  | SetName v => Ok (setName this v)
  | SetValue v => Ok (setValue this v)
  | SetText v => Ok (setText this v)
  | SetHelp v => Ok (setHelp this v)
  | SetTemplateFactory v => Ok (setTemplateFactory this v)
  | SetLazyTemplateFactory cb => Ok (setLazyTemplateFactory this cb)
  | SetValidationErrorMessageFn v => Ok (setValidationErrorMessageFn this v)
  | SetTransformer v => Ok (setTransformer this v)
  | AddValidationErrorMessageFn v => Ok (addValidationErrorMessageFn this v)
  | SetField key fieldBuilder => setField this key fieldBuilder
  | AddSelectOption selectBuilder => addSelectOption this selectBuilder
  | SetType tc => Ok (setType this tc)
  | SetTypeAndValidate type name => Ok (setTypeAndValidate this type name)
  | SetLazyTemplateProvider p => Ok (setLazyTemplateProvider this p)
  | MakeOptional => Ok (makeOptional this)
  | SetNullOption selectBuilder => setNullOption this selectBuilder
  | SetPlaceholder v => Ok (setPlaceholder this v)
  | SetAutoFocus v => Ok (setAutoFocus this v)
  | SetConfig v => Ok (setConfig this v)
  | DisableTemplates => Ok (disableTemplates this)
  end.

(** A chain [b.m1(..).m2(..)...]: it stops at the first exception. *)
Fixpoint chain `{Collaborators} (this : BaseBuilder) (ms : list (method BaseBuilder))
  : result BaseBuilder :=
  match ms with
  | [] => Ok this
  | m :: tl => b <- invoke this m ;; chain b tl
  end.

Definition is_SetField {B} (m : method B) : bool :=
  match m with SetField _ _ => true | _ => false end.

Definition is_AddSelectOption {B} (m : method B) : bool :=
  match m with AddSelectOption _ => true | _ => false end.

(** The keys of the [setField] calls of a chain, in call order. *)
Fixpoint field_keys {B} (ms : list (method B)) : list string :=
  match ms with
  | [] => []
  | SetField key _ :: tl => key :: field_keys tl
  | _ :: tl => field_keys tl
  end.

(** [configuration.order] and [configuration.options] as stored in the
    state: the empty list when the key is missing. *)
Definition list_slot (key : string) (o : obj) : list jsval :=
  match lookup key o with
  | Some (VArr l) => l
  | _ => []
  end.

(** ** Builders by reference *)

(** A heap of builders: a reference holds the state its builder was
    constructed with, the fields in it by value.  It serves to follow what
    a call has read from another builder at the time of the call; the
    objects with their assignable property come further down. *)
Definition heap := list BaseBuilder.
Definition ref := nat.

(** Reading through a reference that holds no builder is a TypeError. *)
Definition deref (h : heap) (r : ref) : result BaseBuilder :=
  match nth_error h r with
  | Some st => Ok st
  | None => Err JsTypeError
  end.

(** [new BaseBuilder(state)] *)
Definition new_BaseBuilder (h : heap) (state : BaseBuilder) : heap * ref :=
  (h ++ [state], List.length h).

(** The builder arguments of a call, read from the heap. *)
Definition load_args (h : heap) (m : method ref) : result (method BaseBuilder) :=
  match m with
  | SetDisabled v => Ok (SetDisabled v)
  | SetLabel v => Ok (SetLabel v)
  | SetName v => Ok (SetName v)
  | SetValue v => Ok (SetValue v)
  | SetText v => Ok (SetText v)
  | SetHelp v => Ok (SetHelp v)
  | SetTemplateFactory v => Ok (SetTemplateFactory v)
  | SetLazyTemplateFactory cb => Ok (SetLazyTemplateFactory cb)
  | SetValidationErrorMessageFn v => Ok (SetValidationErrorMessageFn v)
  | SetTransformer v => Ok (SetTransformer v)
  | AddValidationErrorMessageFn v => Ok (AddValidationErrorMessageFn v)
  | SetField key r => b <- deref h r ;; Ok (SetField key b)
  | AddSelectOption r => b <- deref h r ;; Ok (AddSelectOption b)
  | SetType tc => Ok (SetType tc)
  | SetTypeAndValidate type name => Ok (SetTypeAndValidate type name)
  | SetLazyTemplateProvider p => Ok (SetLazyTemplateProvider p)
  | MakeOptional => Ok MakeOptional
  | SetNullOption r => b <- deref h r ;; Ok (SetNullOption b)
  | SetPlaceholder v => Ok (SetPlaceholder v)
  | SetAutoFocus v => Ok (SetAutoFocus v)
  | SetConfig v => Ok (SetConfig v)
  | DisableTemplates => Ok DisableTemplates
  end.

(** [this.m(args)] on the heap: the method reads [this._state], computes
    the new state and returns [new BaseBuilder(newState)]. *)
Definition call `{Collaborators} (h : heap) (this : ref) (m : method ref)
  : result (heap * ref) :=
  state <- deref h this ;;
  m' <- load_args h m ;;
  newState <- invoke state m' ;;
  Ok (new_BaseBuilder h newState).

(** A sequence of calls, each on any builder allocated so far. *)
Fixpoint calls `{Collaborators} (h : heap) (cs : list (ref * method ref)) : result heap :=
  match cs with
  | [] => Ok h
  | (this, m) :: tl => hr <- call h this m ;; calls (fst hr) tl
  end.

(** [this.getType()] and [this.getOptions(provider, config)] on the heap. *)
Definition getType_at `{Collaborators} (h : heap) (this : ref) : result jsval :=
  state <- deref h this ;; getType state.

Definition getOptions_at `{Collaborators} (h : heap) (this : ref)
  (lazyTemplateProvider : option Provider) (config : option bool) : result obj :=
  state <- deref h this ;; getOptions state lazyTemplateProvider config.

(** ** Descendants *)

(** The descendant a path of field keys leads to:
    [this._fieldBuilders.get(k1)._fieldBuilders.get(k2)...]. *)
Fixpoint descend (this : BaseBuilder) (path : list string) : option BaseBuilder :=
  match path with
  | [] => Some this
  | key :: rest =>
      match lookup key (_fieldBuilders this) with
      | Some field => descend field rest
      | None => None
      end
  end.

(** Where the options of that descendant sit in the realized options of
    the root: [fields.k1.fields.k2...]. *)
Fixpoint fields_path (path : list string) : list string :=
  match path with
  | [] => []
  | key :: rest => "fields" :: key :: fields_path rest
  end.

(** ** The two reductions over the fields, on their own *)

(** The [reduce] of [getOptions], given how one field is realized. *)
Definition collect_fields (realize : BaseBuilder -> result obj)
  : list (string * BaseBuilder) -> obj -> result obj :=
  fix reduce (entries : list (string * BaseBuilder)) (acc : obj) {struct entries}
    : result obj :=
    match entries with
    | [] => Ok acc
    | (key, field) :: tl =>
        o <- realize field ;;
        reduce tl (setIn ["options"; "fields"; key] (VObj o) acc)
    end.

(** The [reduce] of [getType], given how one field is realized. *)
Definition collect_types (realize : BaseBuilder -> result jsval)
  : list (string * BaseBuilder) -> obj -> result obj :=
  fix reduce (entries : list (string * BaseBuilder)) (acc : obj) {struct entries}
    : result obj :=
    match entries with
    | [] => Ok acc
    | (key, field) :: tl =>
        t <- realize field ;; reduce tl (map_set key t acc)
    end.

(** The closure [type] of [getType]: the type before the optional wrapper
    is applied. *)
Definition inner_type `{Collaborators} (this : BaseBuilder) : result jsval :=
  if isEmpty (_fieldBuilders this) then call_type this VUndefined
  else subTypes <- collect_types getType (_fieldBuilders this) [] ;;
       call_type this (VObj subTypes).

(** The object [{ options: { fields: F } }]. *)
Definition wrap_fields (F : obj) : obj := [("options", VObj [("fields", VObj F)])].

(** The [fields] map alone: what [collect_fields] accumulates below
    [options.fields]. *)
Fixpoint collect_plain (realize : BaseBuilder -> result obj)
  (entries : list (string * BaseBuilder)) (F : obj) {struct entries} : result obj :=
  match entries with
  | [] => Ok F
  | (key, field) :: tl =>
      o <- realize field ;; collect_plain realize tl (map_set key (VObj o) F)
  end.

(** [v.a.b...]: reading a path of keys in a realized value. *)
Fixpoint getIn (path : list string) (v : jsval) : jsval :=
  match path with
  | [] => v
  | k :: rest =>
      match v with
      | VObj m => match lookup k m with Some v' => getIn rest v' | None => VUndefined end
      | _ => VUndefined
      end
  end.

(** What the state must look like for the list-valued keys: missing, or a
    list. *)
Definition slot_ok (key : string) (this : BaseBuilder) : Prop :=
  match lookup key (options this) with
  | None => True
  | Some (VArr _) => True
  | Some _ => False
  end.

(** The state of a builder assembled through the methods keeps [order] and
    [options] as lists, has no [fields] key of its own, and no field key
    twice. *)
Definition well_formed (this : BaseBuilder) : Prop :=
  slot_ok "order" this /\ slot_ok "options" this
  /\ lookup "fields" (options this) = None
  /\ NoDup (map fst (_fieldBuilders this)).

(** The builders a path goes through, its end apart, are well formed. *)
Fixpoint well_formed_along (this : BaseBuilder) (path : list string) : Prop :=
  match path with
  | [] => True
  | key :: rest =>
      well_formed this
      /\ match lookup key (_fieldBuilders this) with
         | Some field => well_formed_along field rest
         | None => True
         end
  end.

(** What a method other than [setField] and [addSelectOption] leaves
    alone. *)
Definition same_lists (this b' : BaseBuilder) : Prop :=
  _fieldBuilders b' = _fieldBuilders this
  /\ lookup "order" (options b') = lookup "order" (options this)
  /\ lookup "options" (options b') = lookup "options" (options this)
  /\ lookup "fields" (options b') = lookup "fields" (options this).

(** ** Sample collaborators and builders *)

(** A term model of the collaborators, to run the builder on examples.  A
    maybe type is an array around the wrapped type, and [maybe] returns a
    maybe type as it is, as tcomb does. *)
Definition sample : Collaborators :=
  {| maybe := fun t =>
       match t with
       | VArr _ => Ok t
       | _ => Ok (VArr [t])
       end;
     validation := fun type errorFn name =>
       Ok (VObj [("type", type); ("error", errorFn); ("name", name)]);
     combine := fun fns => VObj [("combine", VArr fns)];
     mergeIndexed := fun _ value => value |}.

(** The builder a chain ends with, and the options a realization returns,
    when they return. *)
Definition builder_of (r : result BaseBuilder) : BaseBuilder :=
  match r with Ok b => b | Err _ => initialState end.

Definition options_of (r : result obj) : obj :=
  match r with Ok o => o | Err _ => [] end.

(** A template callback: the factory it returns is named after the
    provider. *)
Definition sample_callback : templateCallback :=
  fun provider =>
    match provider with
    | Some p => Ok (VRef p)
    | None => Ok VNull
    end.

(** [new BaseBuilder().setLazyTemplateFactory(cb)] *)
Definition sample_templated : BaseBuilder :=
  setLazyTemplateFactory initialState sample_callback.

(** [new BaseBuilder().setType(() => T)] for an opaque type [T]. *)
Definition sample_leaf : BaseBuilder :=
  setType initialState (fun _ _ => Ok (VRef 1)).

(** [new BaseBuilder().setValue(true).setText('Yes')] *)
Definition sample_yes : BaseBuilder :=
  builder_of (chain (H := sample) initialState [SetValue (VBool true); SetText (VStr "Yes")]).

(** [new BaseBuilder().setField('a', leaf)] *)
Definition sample_one_field : BaseBuilder :=
  builder_of (chain (H := sample) initialState [SetField "a" sample_leaf]).

(** [new BaseBuilder().setField('a', leaf).setField('b', leaf)] *)
Definition sample_ab : BaseBuilder :=
  builder_of (chain (H := sample) initialState
                [SetField "a" sample_leaf; SetField "b" sample_leaf]).

(** [new BaseBuilder().addSelectOption(yes)] *)
Definition sample_select : BaseBuilder :=
  builder_of (chain (H := sample) initialState [AddSelectOption sample_yes]).

(** [new BaseBuilder().setLazyTemplateProvider(7).setField('f', templated)] *)
Definition sample_provided : BaseBuilder :=
  builder_of (chain (H := sample) initialState
                [SetLazyTemplateProvider 7; SetField "f" sample_templated]).

(** The same on a root with [_disableTemplates()]. *)
Definition sample_disabled : BaseBuilder :=
  builder_of (chain (H := sample) initialState
                [DisableTemplates; SetLazyTemplateProvider 7;
                 SetField "f" sample_templated]).

(** A root without a provider, above a field [c] that has provider 9 and a
    templated field [g] of its own. *)
Definition sample_middle : BaseBuilder :=
  builder_of (chain (H := sample) initialState
                [SetLazyTemplateProvider 9; SetField "g" sample_templated]).

Definition sample_nested : BaseBuilder :=
  builder_of (chain (H := sample) initialState [SetField "c" sample_middle]).

(** [new BaseBuilder().setField('k', leaf)], then [setField('k', yes)]. *)
Definition sample_k1 : BaseBuilder :=
  builder_of (setField initialState "k" sample_leaf).

Definition sample_k2 : BaseBuilder :=
  builder_of (setField sample_k1 "k" sample_yes).

(** [new BaseBuilder().setValidationErrorMessageFn(f).addValidationErrorMessageFn(g)]
    for two opaque functions. *)
Definition sample_two_errors : BaseBuilder :=
  addValidationErrorMessageFn (H := sample)
    (setValidationErrorMessageFn (H := sample) initialState (VRef 1)) (VRef 2).

(** A heap with a fresh builder at 0 and the [Yes] option at 1; the calls
    [h[0].addSelectOption(h[1])], then [h[1].setText('No')] and
    [h[3].setValue(false)]. *)
Definition sample_heap : heap := [initialState; sample_yes].

Definition sample_heap_selected : heap :=
  match call (H := sample) sample_heap 0 (AddSelectOption 1) with
  | Ok (h, _) => h
  | Err _ => []
  end.

Definition sample_later_calls : list (ref * method ref) :=
  [(1, SetText (VStr "No")); (3, SetValue (VBool false))].

Definition sample_heap_later : heap :=
  match calls (H := sample) sample_heap_selected sample_later_calls with
  | Ok h => h
  | Err _ => []
  end.

(** ** Builder objects and their one property *)

(** A builder is a JavaScript object with one property, [_state].  Here the
    objects live in a store, a reference is an index into it, and the
    programs that run over it may read a property, allocate an object and
    assign a property: whether the methods ever assign into an object that
    was there before is then a question about their bodies.

    The value of [_state] is the state map.  The entries of its
    [_fieldBuilders] are references to other builder objects; they are kept
    apart as [fieldRefs], and [shell] holds the rest of the map. *)
Record object_state : Type := mkObject {
  shell : BaseBuilder;
  fieldRefs : list (string * ref)
}.

(** An object whose [_state] was not assigned yet is [None]. *)
Definition objects := list (option object_state).

(** A program: it ends with a value or an exception, and leaves a store. *)
Definition prog (A : Type) := objects -> result A * objects.

Definition unit_prog {A} (a : A) : prog A := fun h => (Ok a, h).

Definition bind_prog {A B} (c : prog A) (k : A -> prog B) : prog B :=
  fun h =>
    match c h with
    | (Ok a, h') => k a h'
    | (Err e, h') => (Err e, h')
    end.

Notation "x <-- c ;;; k" := (bind_prog c (fun x => k))
  (at level 61, c at next level, right associativity).

(** [throw e], and a computation that touches no object. *)
Definition throw {A} (e : exn) : prog A := fun h => (Err e, h).

Definition pure_result {A} (r : result A) : prog A := fun h => (r, h).

(** [r._state] *)
Definition get_state (r : ref) : prog object_state :=
  fun h =>
    match nth_error h r with
    | Some (Some st) => (Ok st, h)
    | _ => (Err JsTypeError, h)
    end.

(** The store with the property of object [r] assigned. *)
Fixpoint assign (r : ref) (st : object_state) (h : objects) : objects :=
  match h, r with
  | [], _ => []
  | _ :: tl, 0 => Some st :: tl
  | o :: tl, S r' => o :: assign r' st tl
  end.

(** [r._state = st] *)
Definition set_state (r : ref) (st : object_state) : prog unit :=
  fun h =>
    match nth_error h r with
    | Some _ => (Ok tt, assign r st h)
    | None => (Err JsTypeError, h)
    end.

(** A new object, its property not assigned yet. *)
Definition allocate : prog ref := fun h => (Ok (List.length h), h ++ [None]).

(** [new BaseBuilder(state)]: the constructor runs [this._state = state] on
    the new object. *)
Definition construct (state : object_state) : prog ref :=
  this <-- allocate ;;; _ <-- set_state this state ;;; unit_prog this.

(** Realization reads the receiver and, through the references in its
    [_fieldBuilders], its fields and theirs: [snapshot] is the tree of
    states it reads.  The depth of the recursion is bounded by [fuel]; a
    reference that holds no builder is a TypeError. *)
Definition each_field {A B} (f : A -> result B)
  : list (string * A) -> result (list (string * B)) :=
  fix each (l : list (string * A)) : result (list (string * B)) :=
    match l with
    | [] => Ok []
    | (key, a) :: tl => b <- f a ;; rest <- each tl ;; Ok ((key, b) :: rest)
    end.

Fixpoint snapshot (fuel : nat) (h : objects) (this : ref) {struct fuel}
  : result BaseBuilder :=
  match fuel with
  | 0 => Err (JsError "Maximum call stack size exceeded")
  | S fuel' =>
      match nth_error h this with
      | Some (Some st) =>
          fields <- each_field (snapshot fuel' h) (fieldRefs st) ;;
          Ok (with_fieldBuilders (shell st) fields)
      | _ => Err JsTypeError
      end
  end.

(** [this.getType()] and [this.getOptions(provider, config)] on an
    object. *)
Definition object_getType `{Collaborators} (h : objects) (this : ref) : result jsval :=
  b <- snapshot (List.length h) h this ;; getType b.

Definition object_getOptions `{Collaborators} (h : objects) (this : ref)
  (lazyTemplateProvider : option Provider) (config : option bool) : result obj :=
  b <- snapshot (List.length h) h this ;; getOptions b lazyTemplateProvider config.

(** A method that builds the new state from the old one alone:
    [return new BaseBuilder(f(this._state))]. *)
Definition from_state (f : BaseBuilder -> BaseBuilder) (this : ref) : prog ref :=
  st <-- get_state this ;;;
  construct {| shell := f (shell st); fieldRefs := fieldRefs st |}.

(** [this.m(args)] as a program over the objects. *)
Definition send `{Collaborators} (this : ref) (m : method ref) : prog ref :=
  match m with
  | SetDisabled v => from_state (fun s => setDisabled s v) this
  | SetLabel v => from_state (fun s => setLabel s v) this
  | SetName v => from_state (fun s => setName s v) this
  | SetValue v => from_state (fun s => setValue s v) this
  | SetText v => from_state (fun s => setText s v) this
  | SetHelp v => from_state (fun s => setHelp s v) this
  | SetTemplateFactory v => from_state (fun s => setTemplateFactory s v) this
  | SetLazyTemplateFactory cb => from_state (fun s => setLazyTemplateFactory s cb) this
  | SetValidationErrorMessageFn v =>
      from_state (fun s => setValidationErrorMessageFn s v) this
  | SetTransformer v => from_state (fun s => setTransformer s v) this
  | AddValidationErrorMessageFn v =>
      from_state (fun s => addValidationErrorMessageFn s v) this
  | SetField key fieldBuilder =>
      st <-- get_state this ;;;
      if truthy (select_options_slot (shell st))
      then throw (JsError msg_field_after_select)
      else
        s <-- pure_result (push_option (shell st) "order" (VStr key)) ;;;
        construct {| shell := s; fieldRefs := map_set key fieldBuilder (fieldRefs st) |}
  | AddSelectOption selectBuilder =>
      st <-- get_state this ;;;
      if negb (isEmpty (fieldRefs st))
      then throw (JsError msg_select_after_field)
      else
        selectOptions <--
          (fun h => (object_getOptions h selectBuilder None None, h)) ;;;
        s <-- pure_result (push_option (shell st) "options" (VObj selectOptions)) ;;;
        construct {| shell := s; fieldRefs := fieldRefs st |}
  | SetType tc => from_state (fun s => setType s tc) this
  | SetTypeAndValidate type name => from_state (fun s => setTypeAndValidate s type name) this
  | SetLazyTemplateProvider p => from_state (fun s => setLazyTemplateProvider s p) this
  | MakeOptional => from_state makeOptional this
  | SetNullOption selectBuilder =>
      nullOption <--
        (fun h => (object_getOptions h selectBuilder None None, h)) ;;;
      from_state
        (fun s => mergeDeep s [("options", VObj [("nullOption", VObj nullOption)])]) this
  | SetPlaceholder v => from_state (fun s => setPlaceholder s v) this
  | SetAutoFocus v => from_state (fun s => setAutoFocus s v) this
  | SetConfig v => from_state (fun s => setConfig s v) this
  | DisableTemplates => from_state disableTemplates this
  end.

(** The store a program can meet: every reference kept in an object points
    to an object that was constructed before it. *)
Definition store_ok (h : objects) : Prop :=
  forall r st, nth_error h r = Some (Some st) ->
    forall key r', In (key, r') (fieldRefs st) ->
      r' < r /\ exists st', nth_error h r' = Some (Some st').

(** The builder arguments of a call are builders of the store. *)
Definition args_ok (h : objects) (m : method ref) : Prop :=
  match m with
  | SetField _ r | AddSelectOption r | SetNullOption r =>
      exists st, nth_error h r = Some (Some st)
  | _ => True
  end.

(** A store with a fresh builder at 0 and the [Yes] option at 1. *)
Definition sample_objects : objects :=
  [Some {| shell := initialState; fieldRefs := [] |};
   Some {| shell := sample_yes; fieldRefs := [] |}].

(** ** Further notions for the properties *)

(** Induction on a builder, with the property known of its fields. *)
Fixpoint BaseBuilder_fields_ind (P : BaseBuilder -> Prop)
  (step : forall b, Forall (fun entry => P (snd entry)) (_fieldBuilders b) -> P b)
  (b : BaseBuilder) {struct b} : P b :=
  step b
    (match b as b0 return Forall (fun entry => P (snd entry)) (_fieldBuilders b0) with
     | mkBuilder fb _ _ _ _ _ _ =>
         (fix all (l : list (string * BaseBuilder))
            : Forall (fun entry => P (snd entry)) l :=
            match l with
            | [] => Forall_nil _
            | entry :: tl =>
                Forall_cons entry (BaseBuilder_fields_ind P step (snd entry)) (all tl)
            end) fb
     end).

(** Two objects with the same value under every key (the order of the keys
    apart). *)
Definition obj_equiv (m m' : obj) : Prop := forall k, lookup k m = lookup k m'.

(** The same exception, or equivalent objects. *)
Definition result_equiv (r r' : result obj) : Prop :=
  match r, r' with
  | Ok m, Ok m' => obj_equiv m m'
  | Err e, Err e' => e = e'
  | _, _ => False
  end.

(** Maps and lists: the values [mergeDeep] merges into rather than
    replaces. *)
Definition is_collection (v : jsval) : bool :=
  match v with VObj _ | VArr _ => true | _ => false end.

(** The entry of the options a plain setter writes: its key and the value
    it is called with. *)
Definition option_entry {B : Type} (m : method B) : option (string * jsval) :=
  match m with
  | SetDisabled v => Some ("disabled", v)
  | SetLabel v => Some ("label", v)
  | SetName v => Some ("name", v)
  | SetValue v => Some ("value", v)
  | SetText v => Some ("text", v)
  | SetHelp v => Some ("help", v)
  | SetTemplateFactory v => Some ("factory", v)
  | SetValidationErrorMessageFn v => Some ("error", v)
  | SetTransformer v => Some ("transformer", v)
  | SetConfig v => Some ("config", v)
  | _ => None
  end.

(** The snapshots the [addSelectOption] calls of a chain take, in call
    order. *)
Fixpoint select_snapshots `{Collaborators} (ms : list (method BaseBuilder)) : list jsval :=
  match ms with
  | [] => []
  | AddSelectOption selectBuilder :: tl =>
      VObj (options_of (getOptions selectBuilder None None)) :: select_snapshots tl
  | _ :: tl => select_snapshots tl
  end.

(** The [attrs] entry is missing, a map, or a scalar: not a list. *)
Definition attrs_not_list (b : BaseBuilder) : Prop :=
  match lookup "attrs" (options b) with
  | Some (VArr _) => False
  | _ => True
  end.

(** The methods [getType] can see: the ones that set the type, the
    optional flag, a field or the error function. *)
Definition type_method {B : Type} (m : method B) : bool :=
  match m with
  | SetType _ | SetTypeAndValidate _ _ | MakeOptional | SetField _ _
  | SetValidationErrorMessageFn _ | AddValidationErrorMessageFn _ => true
  | _ => false
  end.

(** [addValidationErrorMessageFn] called with each of the functions in
    turn. *)
Definition add_errors (fns : list nat) : list (method BaseBuilder) :=
  map (fun n => AddValidationErrorMessageFn (VRef n)) fns.

(** Collaborators whose [combine] returns a function, as a reference. *)
Definition sample_refs : Collaborators :=
  {| maybe := maybe (Collaborators := sample);
     validation := validation (Collaborators := sample);
     combine := fun fns => VRef (100 + List.length fns);
     mergeIndexed := mergeIndexed (Collaborators := sample) |}.

(** More sample builders. *)

(** A struct of two leaves: its type constructor returns the sub-types it
    is given. *)
Definition sample_struct : BaseBuilder :=
  builder_of (chain (H := sample) (setType initialState (fun _ subTypes => Ok subTypes))
                [SetField "a" sample_leaf; SetField "b" sample_leaf]).

(** The same with a second field that has no type. *)
Definition sample_broken : BaseBuilder :=
  builder_of (chain (H := sample) (setType initialState (fun _ subTypes => Ok subTypes))
                [SetField "a" sample_leaf; SetField "x" initialState]).

(** [new BaseBuilder().setField('f', templated)]: no provider anywhere. *)
Definition sample_unprovided : BaseBuilder :=
  builder_of (chain (H := sample) initialState [SetField "f" sample_templated]).

(** [new BaseBuilder().setValue(false)] *)
Definition sample_no : BaseBuilder :=
  builder_of (chain (H := sample) initialState [SetValue (VBool false)]).

(** Two select options with a label set in between. *)
Definition sample_two_selects : BaseBuilder :=
  builder_of (chain (H := sample) initialState
                [AddSelectOption sample_yes; SetLabel (VStr "Pick");
                 AddSelectOption sample_no]).

(** [setNullOption(yes)], then [setNullOption(no)]. *)
Definition sample_null1 : BaseBuilder :=
  builder_of (setNullOption (H := sample) initialState sample_yes).

Definition sample_null2 : BaseBuilder :=
  builder_of (setNullOption (H := sample) sample_null1 sample_no).

(** * Properties *)

(** ** Maps *)

Lemma lookup_map_set_eq {V : Type} (k : string) (v : V) (m : list (string * V)) :
  lookup k (map_set k v m) = Some v.
Proof.
  induction m as [|[k' v'] tl IH]; simpl.
  - now rewrite String.eqb_refl.
  - destruct (String.eqb k k') eqn:Hk; simpl.
    + now rewrite String.eqb_refl.
    + now rewrite Hk.
Qed.

Lemma lookup_map_set_neq {V : Type} (k k0 : string) (v : V) (m : list (string * V)) :
  k0 <> k -> lookup k0 (map_set k v m) = lookup k0 m.
Proof.
  intros Hne. induction m as [|[k' v'] tl IH]; simpl.
  - destruct (String.eqb_spec k0 k); [contradiction | reflexivity].
  - destruct (String.eqb_spec k k') as [->|Hk]; simpl.
    + destruct (String.eqb_spec k0 k'); [contradiction | reflexivity].
    + destruct (String.eqb k0 k'); [reflexivity | exact IH].
Qed.

Lemma lookup_In {V : Type} (k : string) (v : V) (m : list (string * V)) :
  lookup k m = Some v -> In (k, v) m.
Proof.
  induction m as [|[k' v'] tl IH]; simpl; [discriminate|].
  destruct (String.eqb_spec k k') as [->|Hk]; intros H.
  - injection H as ->. now left.
  - right. now apply IH.
Qed.

Lemma map_fst_map_set_in {V : Type} (k : string) (v : V) (m : list (string * V)) :
  In k (map fst m) -> map fst (map_set k v m) = map fst m.
Proof.
  induction m as [|[k' v'] tl IH]; simpl; [contradiction|].
  destruct (String.eqb_spec k k') as [->|Hk]; simpl; [reflexivity|].
  intros [Heq|Hin]; [now subst | now rewrite IH].
Qed.

Lemma map_fst_map_set_notin {V : Type} (k : string) (v : V) (m : list (string * V)) :
  ~ In k (map fst m) -> map fst (map_set k v m) = map fst m ++ [k].
Proof.
  induction m as [|[k' v'] tl IH]; simpl; [reflexivity|].
  intros Hnot.
  destruct (String.eqb_spec k k') as [->|Hk]; simpl.
  - exfalso. apply Hnot. now left.
  - rewrite IH; [reflexivity | intros Hin; apply Hnot; now right].
Qed.

Lemma NoDup_map_set {V : Type} (k : string) (v : V) (m : list (string * V)) :
  NoDup (map fst m) -> NoDup (map fst (map_set k v m)).
Proof.
  intros Hnd. destruct (in_dec string_dec k (map fst m)) as [Hin|Hnot].
  - now rewrite map_fst_map_set_in.
  - rewrite map_fst_map_set_notin by assumption.
    apply NoDup_app; [assumption | repeat constructor; simpl; tauto |].
    intros x Hx [<-|[]]. contradiction.
Qed.

Section Facts.
Context {E : Collaborators}.

(** ** Deep merge *)

(** [merge_obj] is [merge_val] on two maps. *)
Lemma merge_val_obj (m n : obj) : merge_val (VObj m) (VObj n) = VObj (merge_obj m n).
Proof.
  simpl. f_equal. revert m.
  induction n as [|[k x] tl IH]; intros m; simpl; [reflexivity | apply IH].
Qed.

(** A setter that merges [{ options: { key: v } }] touches no other key of
    the options and nothing else of the state. *)
Lemma mergeDeep_single_other (this : BaseBuilder) (key k : string) (v : jsval) :
  k <> key ->
  lookup k (options (mergeDeep this [("options", VObj [(key, v)])]))
  = lookup k (options this).
Proof.
  intros Hne. unfold mergeDeep. simpl.
  now apply lookup_map_set_neq.
Qed.

Lemma mergeDeep_state (this : BaseBuilder) (source : obj) :
  _fieldBuilders (mergeDeep this source) = _fieldBuilders this
  /\ _isOptional (mergeDeep this source) = _isOptional this
  /\ _templateProviderCallback (mergeDeep this source) = _templateProviderCallback this
  /\ _lazyTemplateProvider (mergeDeep this source) = _lazyTemplateProvider this
  /\ _type (mergeDeep this source) = _type this
  /\ _disableTemplates (mergeDeep this source) = _disableTemplates this.
Proof.
  unfold mergeDeep. destruct (lookup "options" source) as [[]|]; simpl; auto 10.
Qed.

(** ** Unfolding the realization functions *)

Lemma getOptions_eq (this : BaseBuilder) (p : option Provider) (c : option bool) :
  getOptions this p c =
  if missing_provider this p c then Err (JsError msg_no_provider)
  else
    fields <- collect_fields
                (fun field => getOptions field (resolve_provider this p)
                                (Some (resolve_disableTemplates this c)))
                (_fieldBuilders this) [] ;;
    finish_options this (resolve_provider this p) (resolve_disableTemplates this c) fields.
Proof. destruct this; reflexivity. Qed.

Lemma getType_eq (this : BaseBuilder) :
  getType this =
  if _isOptional this then t <- inner_type this ;; maybe t else inner_type this.
Proof. destruct this; reflexivity. Qed.

(** ** The shape of the collected fields *)

Lemma setIn_fields_empty (key : string) (v : jsval) :
  setIn ["options"; "fields"; key] v [] = wrap_fields [(key, v)].
Proof. reflexivity. Qed.

Lemma setIn_fields_wrap (key : string) (v : jsval) (F : obj) :
  setIn ["options"; "fields"; key] v (wrap_fields F) = wrap_fields (map_set key v F).
Proof. reflexivity. Qed.

Lemma collect_fields_cons realize key field tl (acc : obj) :
  collect_fields realize ((key, field) :: tl) acc
  = (o <- realize field ;;
     collect_fields realize tl (setIn ["options"; "fields"; key] (VObj o) acc)).
Proof. reflexivity. Qed.

Lemma collect_fields_wrap realize entries (F : obj) :
  collect_fields realize entries (wrap_fields F)
  = (F' <- collect_plain realize entries F ;; Ok (wrap_fields F')).
Proof.
  revert F. induction entries as [|[key field] tl IH]; intros F; [reflexivity|].
  rewrite collect_fields_cons. cbn [collect_plain].
  destruct (realize field) as [o|e]; cbn [bind]; [|reflexivity].
  rewrite setIn_fields_wrap. apply IH.
Qed.

(** The collected object is empty when there is no field, and
    [{ options: { fields: F } }] otherwise. *)
Lemma collect_fields_shape realize entries (fields : obj) :
  collect_fields realize entries [] = Ok fields ->
  (entries = [] /\ fields = [])
  \/ (exists F, fields = wrap_fields F /\ collect_plain realize entries [] = Ok F).
Proof.
  destruct entries as [|[key field] tl].
  - simpl. intros H. injection H as <-. now left.
  - rewrite collect_fields_cons. cbn [collect_plain].
    destruct (realize field) as [o|e]; cbn [bind]; [|discriminate].
    rewrite setIn_fields_empty, collect_fields_wrap. cbn [map_set].
    destruct (collect_plain realize tl [(key, VObj o)]) as [F'|e] eqn:HF; simpl; [|discriminate].
    intros H. injection H as <-. right. exists F'. split; reflexivity.
Qed.

Lemma collect_plain_lookup_other realize entries (F F' : obj) (k : string) :
  collect_plain realize entries F = Ok F' ->
  ~ In k (map fst entries) ->
  lookup k F' = lookup k F.
Proof.
  revert F. induction entries as [|[key field] tl IH]; intros F; simpl.
  - intros H _. now injection H as <-.
  - destruct (realize field) as [o|e]; simpl; [|discriminate].
    intros H Hnot. rewrite (IH _ H) by tauto.
    apply lookup_map_set_neq. intuition congruence.
Qed.

(** Every field was realized, and its options sit under its key. *)
Lemma collect_plain_lookup realize entries (F F' : obj) (k : string) (field : BaseBuilder) :
  collect_plain realize entries F = Ok F' ->
  NoDup (map fst entries) ->
  In (k, field) entries ->
  exists o, realize field = Ok o /\ lookup k F' = Some (VObj o).
Proof.
  revert F. induction entries as [|[key fld] tl IH]; intros F; simpl; [intros _ _ []|].
  destruct (realize fld) as [o|e] eqn:Ho; simpl; [|discriminate].
  intros H Hnd [Heq|Hin].
  - injection Heq as -> ->. exists o. split; [assumption|].
    inversion Hnd; subst.
    rewrite (collect_plain_lookup_other _ _ _ _ _ H) by assumption.
    apply lookup_map_set_eq.
  - inversion Hnd; subst. now apply (IH _ H).
Qed.

Lemma collect_fields_all_ok realize entries (acc : obj) :
  (forall key field, In (key, field) entries -> exists o, realize field = Ok o) ->
  exists fields, collect_fields realize entries acc = Ok fields.
Proof.
  revert acc. induction entries as [|[key field] tl IH]; intros acc Hall.
  - now exists acc.
  - rewrite collect_fields_cons.
    destruct (Hall key field) as [o Ho]; [now left|]. rewrite Ho. cbn [bind].
    apply IH. intros k f Hin. apply (Hall k f). now right.
Qed.

(** ** What realization leaves alone *)

Lemma finish_options_lookup_other (this : BaseBuilder) provider (d : bool)
  (fields conf : obj) (k : string) :
  fields = [] \/ (exists F, fields = wrap_fields F) ->
  k <> "factory" -> k <> "fields" ->
  finish_options this provider d fields = Ok conf ->
  lookup k conf = lookup k (options this).
Proof.
  intros Hshape Hk1 Hk2. unfold finish_options.
  assert (Hmerge : forall st, lookup k (options (mergeDeep st fields)) = lookup k (options st)).
  { intros st. destruct Hshape as [->|[F ->]]; [reflexivity|].
    unfold wrap_fields. now apply mergeDeep_single_other. }
  destruct (_templateProviderCallback this) as [cb|]; simpl.
  - destruct (negb (has_key "factory" (options this)) && negb d).
    + destruct (cb provider) as [f|e]; simpl; [|discriminate].
      intros H. injection H as <-. rewrite Hmerge.
      now apply mergeDeep_single_other.
    + simpl. intros H. injection H as <-. apply Hmerge.
  - intros H. injection H as <-. apply Hmerge.
Qed.

(** Realization returns the stored value of every key but [factory] and
    [fields]. *)
Lemma getOptions_lookup_other (this : BaseBuilder) p c (conf : obj) (k : string) :
  k <> "factory" -> k <> "fields" ->
  getOptions this p c = Ok conf ->
  lookup k conf = lookup k (options this).
Proof.
  intros Hk1 Hk2. rewrite getOptions_eq.
  destruct (missing_provider this p c); [discriminate|].
  destruct (collect_fields _ (_fieldBuilders this) []) as [fields|e] eqn:Hf; simpl; [|discriminate].
  apply finish_options_lookup_other; try assumption.
  apply collect_fields_shape in Hf. destruct Hf as [[_ ->]|[F [-> _]]]; eauto.
Qed.

(** ** Realizing a type *)

(** C1.  A builder with no field and no type constructor (neither [setType]
    nor [setTypeAndValidate] was called, so the [_type] slot is still
    [null]) cannot be realized: [getType()] throws, the call of the missing
    constructor being a TypeError. *)
Theorem getType_without_type (this : BaseBuilder) :
  _fieldBuilders this = [] ->
  _type this = None ->
  getType this = Err JsTypeError.
Proof.
  intros Hf Ht. rewrite getType_eq. unfold inner_type, call_type.
  rewrite Hf, Ht. simpl. now destruct (_isOptional this).
Qed.

(** [makeOptional] wraps the inner type, whatever the flag was before. *)
Lemma getType_makeOptional (this : BaseBuilder) :
  getType (makeOptional this) = (t <- inner_type this ;; maybe t).
Proof. rewrite getType_eq. reflexivity. Qed.

(** C6.  When [b.getType()] returns [t], [b.makeOptional().getType()] is
    [tcomb.maybe(t)]; a builder that is not optional returns its inner type
    as it is.  For a builder that is optional already, [t] is a maybe type
    and the equation rests on [tcomb.maybe] returning such a type
    unchanged. *)
Theorem makeOptional_wraps_type
  (maybe_idempotent : forall t t', maybe t = Ok t' -> maybe t' = Ok t')
  (this : BaseBuilder) (t : jsval) :
  getType this = Ok t ->
  getType (makeOptional this) = maybe t
  /\ (_isOptional this = false -> inner_type this = Ok t).
Proof.
  intros Ht. rewrite getType_makeOptional. rewrite getType_eq in Ht.
  destruct (_isOptional this) eqn:Hopt.
  - split; [|discriminate].
    destruct (inner_type this) as [t0|e]; simpl in *; [|discriminate].
    rewrite Ht. symmetry. now apply (maybe_idempotent t0).
  - rewrite Ht. simpl. split; [reflexivity | trivial].
Qed.

(** ** Realizing the options: the missing provider *)

Lemma finish_options_ok (this : BaseBuilder) provider (d : bool) (fields : obj) :
  (forall cb, _templateProviderCallback this = Some cb -> exists f, cb provider = Ok f) ->
  exists conf, finish_options this provider d fields = Ok conf.
Proof.
  intros Hcb. unfold finish_options.
  destruct (_templateProviderCallback this) as [cb|]; simpl; [|eauto].
  destruct (negb (has_key "factory" (options this)) && negb d); simpl; [|eauto].
  destruct (Hcb cb eq_refl) as [f ->]. simpl. eauto.
Qed.

(** The condition of the [throw], spelled out. *)
Lemma missing_provider_spec (this : BaseBuilder) p c :
  missing_provider this p c = true <->
  has_key "factory" (options this) = false
  /\ _templateProviderCallback this <> None
  /\ resolve_provider this p = None
  /\ resolve_disableTemplates this c = false.
Proof.
  unfold missing_provider.
  destruct (has_key "factory" (options this)),
    (_templateProviderCallback this), (resolve_provider this p),
    (resolve_disableTemplates this c); simpl;
    split; intros H; try discriminate; try (repeat split; congruence);
    destruct H as (H1 & H2 & H3 & H4); congruence.
Qed.

(** C2.  Provided no field's [getOptions] and no template callback throws,
    [getOptions(providerArg, config)] throws the missing-provider error if
    and only if: there is no concrete [factory] in the options, a template
    callback is set, neither [providerArg] nor the builder's own provider
    is present, and templates are not disabled (by [config], or else by
    the builder's own flag). *)
Theorem getOptions_missing_provider_iff (this : BaseBuilder)
  (providerArg : option Provider) (config : option bool) :
  (forall key field, In (key, field) (_fieldBuilders this) ->
     exists o, getOptions field (resolve_provider this providerArg)
                 (Some (resolve_disableTemplates this config)) = Ok o) ->
  (forall cb, _templateProviderCallback this = Some cb ->
     exists f, cb (resolve_provider this providerArg) = Ok f) ->
  (getOptions this providerArg config = Err (JsError msg_no_provider)
   <->
   has_key "factory" (options this) = false
   /\ _templateProviderCallback this <> None
   /\ resolve_provider this providerArg = None
   /\ resolve_disableTemplates this config = false).
Proof.
  intros Hfields Hcb. rewrite <- missing_provider_spec, getOptions_eq.
  destruct (missing_provider this providerArg config); [tauto|].
  destruct (collect_fields_all_ok _ _ [] Hfields) as [fields ->]. simpl.
  destruct (finish_options_ok this _ (resolve_disableTemplates this config) fields Hcb)
    as [conf ->].
  split; discriminate.
Qed.

(** ** One method call *)

Lemma push_option_spec (this : BaseBuilder) (key : string) (x : jsval) (b' : BaseBuilder) :
  push_option this key x = Ok b' ->
  lookup key (options b') = Some (VArr (list_slot key (options this) ++ [x]))
  /\ (forall k, k <> key -> lookup k (options b') = lookup k (options this))
  /\ _fieldBuilders b' = _fieldBuilders this
  /\ _disableTemplates b' = _disableTemplates this
  /\ _lazyTemplateProvider b' = _lazyTemplateProvider this.
Proof.
  unfold push_option, list_slot.
  destruct (lookup key (options this)) as [[]|] eqn:Hl; try discriminate;
    intros H; injection H as <-; simpl;
    (split; [apply lookup_map_set_eq|]);
    (split; [intros k Hk; now apply lookup_map_set_neq | auto]).
Qed.

Lemma push_option_ok (this : BaseBuilder) (key : string) (x : jsval) :
  slot_ok key this -> exists b', push_option this key x = Ok b'.
Proof.
  unfold slot_ok, push_option.
  destruct (lookup key (options this)) as [[]|]; try contradiction; eauto.
Qed.

(** Under [slot_ok], the guard of [setField] asks whether the [options] key
    is there. *)
Lemma select_guard (this : BaseBuilder) :
  slot_ok "options" this ->
  truthy (select_options_slot this) = is_some (lookup "options" (options this)).
Proof.
  unfold slot_ok, select_options_slot.
  destruct (lookup "options" (options this)) as [[]|]; simpl; tauto.
Qed.

Lemma same_lists_merge (this : BaseBuilder) (key : string) (v : jsval) :
  key <> "order" -> key <> "options" -> key <> "fields" ->
  same_lists this (mergeDeep this [("options", VObj [(key, v)])]).
Proof.
  intros H1 H2 H3. unfold same_lists.
  split; [apply mergeDeep_state|].
  repeat split; apply mergeDeep_single_other; congruence.
Qed.

Lemma invoke_plain (this : BaseBuilder) (m : method BaseBuilder) (b' : BaseBuilder) :
  is_SetField m = false -> is_AddSelectOption m = false ->
  invoke this m = Ok b' -> same_lists this b'.
Proof.
  destruct m; simpl; try discriminate; intros _ _ H;
    try (injection H as <-;
         first [ apply same_lists_merge; discriminate
               | solve [repeat split] ]).
  - injection H as <-. unfold addValidationErrorMessageFn.
    destruct (negb _); apply same_lists_merge; discriminate.
  - unfold setNullOption in H.
    destruct (getOptions selectBuilder None None); simpl in H; [|discriminate].
    injection H as <-. apply same_lists_merge; discriminate.
Qed.

Lemma well_formed_same_lists (this b' : BaseBuilder) :
  same_lists this b' -> well_formed this -> well_formed b'.
Proof.
  unfold same_lists, well_formed, slot_ok.
  intros (Hf & Ho & Hs & Hfl) (W1 & W2 & W3 & W4).
  rewrite Ho, Hs, Hfl, Hf. auto.
Qed.

Lemma setField_spec (this : BaseBuilder) (key : string) (field b' : BaseBuilder) :
  setField this key field = Ok b' ->
  truthy (select_options_slot this) = false
  /\ _fieldBuilders b' = map_set key field (_fieldBuilders this)
  /\ lookup "order" (options b')
     = Some (VArr (list_slot "order" (options this) ++ [VStr key]))
  /\ (forall k, k <> "order" -> lookup k (options b') = lookup k (options this))
  /\ _disableTemplates b' = _disableTemplates this
  /\ _lazyTemplateProvider b' = _lazyTemplateProvider this.
Proof.
  unfold setField. destruct (truthy (select_options_slot this)); [discriminate|].
  intros H. apply push_option_spec in H. simpl in H.
  destruct H as (H1 & H2 & H3 & H4 & H5). auto 10.
Qed.

Lemma addSelectOption_spec (this opt b' : BaseBuilder) :
  addSelectOption this opt = Ok b' ->
  _fieldBuilders this = []
  /\ exists snapshot,
       getOptions opt None None = Ok snapshot
       /\ _fieldBuilders b' = []
       /\ lookup "options" (options b')
          = Some (VArr (list_slot "options" (options this) ++ [VObj snapshot]))
       /\ (forall k, k <> "options" -> lookup k (options b') = lookup k (options this)).
Proof.
  unfold addSelectOption. destruct (_fieldBuilders this) eqn:Hf; [|discriminate].
  simpl. destruct (getOptions opt None None) as [snapshot|e]; simpl; [|discriminate].
  intros H. apply push_option_spec in H. destruct H as (H1 & H2 & H3 & _).
  split; [reflexivity|]. exists snapshot. rewrite H3, Hf. auto.
Qed.

(** The three kinds of method: [setField], [addSelectOption], and the
    ones that touch neither the fields nor the lists of the options. *)
Ltac method_kind m Hm :=
  destruct (is_SetField m) eqn:?;
  [ destruct m; try discriminate; simpl in Hm; apply setField_spec in Hm
  | destruct (is_AddSelectOption m) eqn:?;
    [ destruct m; try discriminate; simpl in Hm; apply addSelectOption_spec in Hm
    | apply invoke_plain in Hm; try assumption ] ].

Lemma invoke_well_formed (this : BaseBuilder) (m : method BaseBuilder) (b' : BaseBuilder) :
  invoke this m = Ok b' -> well_formed this -> well_formed b'.
Proof.
  intros H W. method_kind m H.
  - destruct H as (_ & Hfb & Hord & Hoth & _).
    destruct W as (W1 & W2 & W3 & W4). unfold well_formed, slot_ok in *.
    rewrite Hord, Hfb, !Hoth by discriminate.
    repeat split; auto. now apply NoDup_map_set.
  - destruct H as (Hf & snapshot & _ & Hfb & Hopt & Hoth).
    destruct W as (W1 & W2 & W3 & W4). unfold well_formed, slot_ok in *.
    rewrite Hopt, Hfb, !Hoth by discriminate.
    repeat split; auto. constructor.
  - now apply (well_formed_same_lists this b').
Qed.

(** Each call adds its key to [order] when it is a [setField], and leaves
    [order] alone otherwise. *)
Lemma invoke_order (this : BaseBuilder) (m : method BaseBuilder) (b' : BaseBuilder) :
  invoke this m = Ok b' ->
  list_slot "order" (options b')
  = list_slot "order" (options this) ++ map VStr (field_keys [m]).
Proof.
  intros H. method_kind m H.
  - destruct H as (_ & _ & Hord & _).
    unfold list_slot at 1. now rewrite Hord.
  - destruct H as (_ & snapshot & _ & _ & _ & Hoth).
    unfold list_slot. rewrite Hoth by discriminate. simpl. now rewrite app_nil_r.
  - destruct H as (_ & Ho & _).
    unfold list_slot. rewrite Ho.
    destruct m; try discriminate; simpl; now rewrite app_nil_r.
Qed.

(** Whether a select option, or a field, is there after a call. *)
Lemma invoke_flags (this : BaseBuilder) (m : method BaseBuilder) (b' : BaseBuilder) :
  invoke this m = Ok b' ->
  is_some (lookup "options" (options b'))
  = is_some (lookup "options" (options this)) || is_AddSelectOption m
  /\ negb (isEmpty (_fieldBuilders b'))
     = negb (isEmpty (_fieldBuilders this)) || is_SetField m.
Proof.
  intros H. method_kind m H.
  - destruct H as (_ & Hfb & _ & Hoth & _).
    rewrite Hoth by discriminate. rewrite Hfb. simpl.
    rewrite orb_false_r, orb_true_r. split; [reflexivity|].
    destruct (_fieldBuilders this) as [|[k f] tl]; simpl; [reflexivity|].
    now destruct (String.eqb key k).
  - destruct H as (Hf & snapshot & _ & Hfb & Hopt & _).
    rewrite Hopt, Hfb, Hf. simpl. now rewrite orb_true_r.
  - destruct H as (Hfb & _ & Hs & _).
    rewrite Hs, Hfb, !orb_false_r. auto.
Qed.

(** ** Chains of calls *)

Lemma well_formed_initialState : well_formed initialState.
Proof. repeat split; simpl; auto. constructor. Qed.

Lemma chain_well_formed (ms : list (method BaseBuilder)) (this b' : BaseBuilder) :
  chain this ms = Ok b' -> well_formed this -> well_formed b'.
Proof.
  revert this. induction ms as [|m tl IH]; intros this; simpl.
  - intros H. now injection H as <-.
  - destruct (invoke this m) as [b|e] eqn:Hm; simpl; [|discriminate].
    intros H W. apply (IH b H). now apply (invoke_well_formed this m).
Qed.

Lemma field_keys_cons {B : Type} (m : method B) (tl : list (method B)) :
  field_keys (m :: tl) = field_keys [m] ++ field_keys tl.
Proof. destruct m; reflexivity. Qed.

Lemma chain_order (ms : list (method BaseBuilder)) (this b' : BaseBuilder) :
  chain this ms = Ok b' ->
  list_slot "order" (options b')
  = list_slot "order" (options this) ++ map VStr (field_keys ms).
Proof.
  revert this. induction ms as [|m tl IH]; intros this; simpl chain.
  - intros H. injection H as <-. simpl. now rewrite app_nil_r.
  - destruct (invoke this m) as [b|e] eqn:Hm; cbn [bind]; [|discriminate].
    intros H. rewrite (IH b H), (invoke_order this m b Hm).
    now rewrite (field_keys_cons m tl), map_app, app_assoc.
Qed.

Lemma chain_flags (ms : list (method BaseBuilder)) (this b' : BaseBuilder) :
  chain this ms = Ok b' ->
  is_some (lookup "options" (options b'))
  = is_some (lookup "options" (options this)) || existsb is_AddSelectOption ms
  /\ negb (isEmpty (_fieldBuilders b'))
     = negb (isEmpty (_fieldBuilders this)) || existsb is_SetField ms.
Proof.
  revert this. induction ms as [|m tl IH]; intros this; simpl.
  - intros H. injection H as <-. now rewrite !orb_false_r.
  - destruct (invoke this m) as [b|e] eqn:Hm; simpl; [|discriminate].
    intros H. destruct (IH b H) as [-> ->].
    destruct (invoke_flags this m b Hm) as [-> ->].
    now rewrite !orb_assoc.
Qed.

(** Once a field is set, the [order] key holds a list. *)
Lemma chain_order_stored (ms : list (method BaseBuilder)) (this b' : BaseBuilder) :
  chain this ms = Ok b' ->
  field_keys ms <> [] ->
  lookup "order" (options b') = Some (VArr (list_slot "order" (options b'))).
Proof.
  assert (Hkeep : forall tl b b',
             chain b tl = Ok b' ->
             lookup "order" (options b) = Some (VArr (list_slot "order" (options b))) ->
             lookup "order" (options b') = Some (VArr (list_slot "order" (options b')))).
  { induction tl as [|m tl IH]; intros b b2; simpl.
    - intros H. now injection H as <-.
    - destruct (invoke b m) as [b1|e] eqn:Hm; simpl; [|discriminate].
      intros H Hb. apply (IH b1 b2 H). method_kind m Hm.
      + destruct Hm as (_ & _ & Hord & _).
        unfold list_slot at 1. now rewrite Hord.
      + destruct Hm as (_ & snapshot & _ & _ & _ & Hoth).
        unfold list_slot. rewrite Hoth by discriminate. exact Hb.
      + destruct Hm as (_ & Ho & _).
        unfold list_slot. rewrite Ho. exact Hb. }
  revert this. induction ms as [|m tl IH]; intros this; simpl chain; [intros _ []; reflexivity|].
  destruct (invoke this m) as [b|e] eqn:Hm; simpl; [|discriminate].
  intros H Hne. destruct (is_SetField m) eqn:HF.
  - destruct m; try discriminate. simpl in Hm.
    apply setField_spec in Hm. destruct Hm as (_ & _ & Hord & _).
    apply (Hkeep tl b b' H). unfold list_slot at 1. now rewrite Hord.
  - apply (IH b H). destruct m; try discriminate; exact Hne.
Qed.

(** ** Fields and select options exclude each other *)

(** C3, as the code has it.  For a builder assembled by a chain of method
    calls from [new BaseBuilder()]: [setField] throws when a select option
    was added and returns a new builder otherwise; [addSelectOption(opt)]
    throws when a field was set; otherwise it realizes [opt.getOptions()]
    on the spot, returns a new builder when that call returns and throws
    what that call throws. *)
Theorem fields_and_select_options_exclusive
  (ms : list (method BaseBuilder)) (this : BaseBuilder) :
  chain initialState ms = Ok this ->
  (existsb is_AddSelectOption ms = true ->
     forall key field, setField this key field = Err (JsError msg_field_after_select))
  /\ (existsb is_SetField ms = true ->
        forall opt, addSelectOption this opt = Err (JsError msg_select_after_field))
  /\ (existsb is_AddSelectOption ms = false ->
        forall key field, exists b', setField this key field = Ok b')
  /\ (existsb is_SetField ms = false ->
        forall opt,
          (forall snapshot, getOptions opt None None = Ok snapshot ->
             exists b', addSelectOption this opt = Ok b')
          /\ (forall e, getOptions opt None None = Err e ->
                addSelectOption this opt = Err e)).
Proof.
  intros Hc.
  pose proof (chain_well_formed ms initialState this Hc well_formed_initialState)
    as (Word & Wopt & _ & _).
  destruct (chain_flags ms initialState this Hc) as [Hsel Hfld]. simpl in Hsel, Hfld.
  split; [|split; [|split]].
  - intros Hex key field. unfold setField.
    rewrite (select_guard this Wopt), Hsel, Hex. reflexivity.
  - intros Hex opt. unfold addSelectOption. rewrite Hfld, Hex. reflexivity.
  - intros Hex key field. unfold setField.
    rewrite (select_guard this Wopt), Hsel, Hex.
    apply push_option_ok. exact Word.
  - intros Hex opt. split.
    + intros snapshot Hs. unfold addSelectOption. rewrite Hfld, Hex, Hs. simpl.
      apply push_option_ok. exact Wopt.
    + intros e He. unfold addSelectOption. rewrite Hfld, Hex, He. reflexivity.
Qed.

(** ** The order of the fields *)

(** C4.  Whatever chain of calls is made on a builder, its [order] is the
    old one followed by the keys of the [setField] calls, in call order:
    each [setField] appends its key, nothing is removed or moved.  The
    realized options carry that list; after
    [b.setField(a, x).setField(k, y)] on a builder with no field yet they
    hold exactly [[a, k]]. *)
Theorem setField_appends_to_order (this : BaseBuilder) :
  (forall ms b',
     chain this ms = Ok b' ->
     list_slot "order" (options b')
     = list_slot "order" (options this) ++ map VStr (field_keys ms)
     /\ (field_keys ms <> [] ->
         forall p c conf,
           getOptions b' p c = Ok conf ->
           lookup "order" conf
           = Some (VArr (list_slot "order" (options this) ++ map VStr (field_keys ms)))))
  /\ (forall a k x y b2 p c conf,
        list_slot "order" (options this) = [] ->
        chain this [SetField a x; SetField k y] = Ok b2 ->
        getOptions b2 p c = Ok conf ->
        lookup "order" conf = Some (VArr [VStr a; VStr k])).
Proof.
  assert (Hgen : forall ms b',
             chain this ms = Ok b' ->
             list_slot "order" (options b')
             = list_slot "order" (options this) ++ map VStr (field_keys ms)
             /\ (field_keys ms <> [] ->
                 forall p c conf,
                   getOptions b' p c = Ok conf ->
                   lookup "order" conf
                   = Some (VArr (list_slot "order" (options this)
                                 ++ map VStr (field_keys ms))))).
  { intros ms b' Hc. split; [now apply chain_order|].
    intros Hne p c conf Hconf.
    rewrite (getOptions_lookup_other b' p c conf "order") by (discriminate || assumption).
    rewrite (chain_order_stored ms this b' Hc Hne).
    now rewrite (chain_order ms this b' Hc). }
  split; [exact Hgen|].
  intros a k x y b2 p c conf Hempty Hc Hconf.
  destruct (Hgen _ _ Hc) as [_ Hreal].
  rewrite (Hreal ltac:(discriminate) p c conf Hconf), Hempty. reflexivity.
Qed.

Lemma filter_key_notin {V : Type} (k : string) (m : list (string * V)) :
  ~ In k (map fst m) -> filter (fun e => String.eqb k (fst e)) m = [].
Proof.
  induction m as [|[k' v] tl IH]; simpl; [reflexivity|].
  intros Hnot. destruct (String.eqb_spec k k') as [->|Hk].
  - exfalso. apply Hnot. now left.
  - apply IH. tauto.
Qed.

Lemma filter_key_unique {V : Type} (k : string) (v : V) (m : list (string * V)) :
  NoDup (map fst m) -> lookup k m = Some v ->
  filter (fun e => String.eqb k (fst e)) m = [(k, v)].
Proof.
  induction m as [|[k' v'] tl IH]; simpl; [discriminate|].
  intros Hnd. inversion Hnd; subst.
  destruct (String.eqb_spec k k') as [->|Hk].
  - intros H. injection H as ->. now rewrite filter_key_notin.
  - now apply IH.
Qed.

(** C10.  Setting the same key twice keeps one field under that key, the
    later builder, and appends the key to [order] both times. *)
Theorem setField_same_key_twice (ms : list (method BaseBuilder))
  (this : BaseBuilder) (k : string) (x y b1 b2 : BaseBuilder) :
  chain initialState ms = Ok this ->
  setField this k x = Ok b1 ->
  setField b1 k y = Ok b2 ->
  filter (fun e => String.eqb k (fst e)) (_fieldBuilders b2) = [(k, y)]
  /\ lookup "order" (options b2)
     = Some (VArr (list_slot "order" (options this) ++ [VStr k; VStr k]))
  /\ list_slot "order" (options b2) = map VStr (field_keys ms ++ [k; k])
  /\ count_occ string_dec (field_keys ms ++ [k; k]) k
     = 2 + count_occ string_dec (field_keys ms) k.
Proof.
  intros Hc H1 H2.
  pose proof (chain_well_formed ms initialState this Hc well_formed_initialState)
    as (_ & _ & _ & Wnd).
  pose proof (chain_order ms initialState this Hc) as Hord. simpl in Hord.
  apply setField_spec in H1. destruct H1 as (_ & Hfb1 & Ho1 & _).
  apply setField_spec in H2. destruct H2 as (_ & Hfb2 & Ho2 & _).
  assert (Hl1 : list_slot "order" (options b1)
                = list_slot "order" (options this) ++ [VStr k]).
  { unfold list_slot at 1. now rewrite Ho1. }
  repeat split.
  - rewrite Hfb2, Hfb1. apply filter_key_unique.
    + now do 2 apply NoDup_map_set.
    + apply lookup_map_set_eq.
  - rewrite Ho2, Hl1, <- app_assoc. reflexivity.
  - unfold list_slot at 1. rewrite Ho2, Hl1, Hord, <- app_assoc, map_app. reflexivity.
  - rewrite count_occ_app. simpl. destruct (string_dec k k); [lia | contradiction].
Qed.

(** ** Error message functions *)

Lemma merge_val_ref (f : nat) (value : jsval) : merge_val (VRef f) value = value.
Proof. now destruct value. Qed.

Lemma lookup_mergeDeep_single (this : BaseBuilder) (key : string) (v : jsval) :
  lookup key (options (mergeDeep this [("options", VObj [(key, v)])]))
  = Some (match lookup key (options this) with
          | Some e => merge_val e v
          | None => v
          end).
Proof. unfold mergeDeep. simpl. apply lookup_map_set_eq. Qed.

Lemma setValidationErrorMessageFn_ref (this : BaseBuilder) (f : nat) :
  lookup "error" (options (setValidationErrorMessageFn this (VRef f))) = Some (VRef f).
Proof.
  unfold setValidationErrorMessageFn. rewrite lookup_mergeDeep_single.
  now destruct (lookup "error" (options this)) as [[]|].
Qed.

Lemma addValidationErrorMessageFn_existing (this : BaseBuilder) (f : nat) (g : jsval) :
  lookup "error" (options this) = Some (VRef f) ->
  lookup "error" (options (addValidationErrorMessageFn this g))
  = Some (combine [VRef f; g]).
Proof.
  intros Hf. unfold addValidationErrorMessageFn. rewrite Hf. simpl negb. cbv iota.
  rewrite lookup_mergeDeep_single, Hf. now rewrite merge_val_ref.
Qed.

(** C8.  With no error function in the options,
    [addValidationErrorMessageFn(g)] is [setValidationErrorMessageFn(g)]
    and the realized [error] is [g]; with an error function [f] there, the
    realized [error] is [validators.combine([f, g])], as it is after
    [setValidationErrorMessageFn(f).addValidationErrorMessageFn(g)]. *)
Theorem addValidationErrorMessageFn_realized (this : BaseBuilder) (g : jsval) :
  (lookup "error" (options this) = None ->
     addValidationErrorMessageFn this g = setValidationErrorMessageFn this g
     /\ forall p c conf,
          getOptions (addValidationErrorMessageFn this g) p c = Ok conf ->
          lookup "error" conf = Some g)
  /\ (forall f,
        lookup "error" (options this) = Some (VRef f) ->
        forall p c conf,
          getOptions (addValidationErrorMessageFn this g) p c = Ok conf ->
          lookup "error" conf = Some (combine [VRef f; g]))
  /\ (forall f p c conf,
        getOptions
          (addValidationErrorMessageFn (setValidationErrorMessageFn this (VRef f)) g)
          p c = Ok conf ->
        lookup "error" conf = Some (combine [VRef f; g])).
Proof.
  repeat split.
  - unfold addValidationErrorMessageFn. now rewrite H.
  - intros p c conf Hconf.
    rewrite (getOptions_lookup_other _ p c conf "error") by (discriminate || eassumption).
    assert (Heq : addValidationErrorMessageFn this g = setValidationErrorMessageFn this g)
      by (unfold addValidationErrorMessageFn; now rewrite H).
    rewrite Heq. unfold setValidationErrorMessageFn.
    rewrite lookup_mergeDeep_single. now rewrite H.
  - intros f Hf p c conf Hconf.
    rewrite (getOptions_lookup_other _ p c conf "error") by (discriminate || eassumption).
    now apply addValidationErrorMessageFn_existing.
  - intros f p c conf Hconf.
    rewrite (getOptions_lookup_other _ p c conf "error") by (discriminate || eassumption).
    apply addValidationErrorMessageFn_existing, setValidationErrorMessageFn_ref.
Qed.

(** ** The provider on its way down *)

Lemma finish_options_fields (this : BaseBuilder) provider (d : bool) (F conf : obj) :
  lookup "fields" (options this) = None ->
  finish_options this provider d (wrap_fields F) = Ok conf ->
  lookup "fields" conf = Some (VObj F).
Proof.
  intros Hnone. unfold finish_options.
  assert (Hmerge : forall st, lookup "fields" (options st) = None ->
            lookup "fields" (options (mergeDeep st (wrap_fields F))) = Some (VObj F)).
  { intros st Hst. unfold wrap_fields. rewrite lookup_mergeDeep_single. now rewrite Hst. }
  destruct (match _templateProviderCallback this with
            | Some cb =>
                if negb (has_key "factory" (options this)) && negb d
                then factory <- cb provider ;;
                     Ok (mergeDeep this [("options", VObj [("factory", factory)])])
                else Ok this
            | None => Ok this
            end) as [st|e] eqn:Hst; cbn [bind]; [|discriminate].
  intros H. injection H as <-. apply Hmerge.
  destruct (_templateProviderCallback this) as [cb|].
  - destruct (negb (has_key "factory" (options this)) && negb d).
    + destruct (cb provider) as [f|e]; cbn [bind] in Hst; [|discriminate].
      injection Hst as <-.
      rewrite mergeDeep_single_other by discriminate. exact Hnone.
    + now injection Hst as <-.
  - now injection Hst as <-.
Qed.

(** A builder with a template callback and no concrete factory, realized
    with templates enabled, gets its factory from the callback. *)
Lemma getOptions_factory (this : BaseBuilder) cb p (conf : obj) :
  _templateProviderCallback this = Some cb ->
  has_key "factory" (options this) = false ->
  getOptions this p (Some false) = Ok conf ->
  exists f, cb (resolve_provider this p) = Ok f /\ lookup "factory" conf = Some f.
Proof.
  intros Hcb Hfac. rewrite getOptions_eq.
  destruct (missing_provider this p (Some false)); [discriminate|].
  destruct (collect_fields _ (_fieldBuilders this) []) as [fields|e] eqn:Hf; simpl; [|discriminate].
  unfold finish_options. rewrite Hcb, Hfac. simpl.
  destruct (cb (resolve_provider this p)) as [f|e]; simpl; [|discriminate].
  intros H. injection H as <-. exists f. split; [reflexivity|].
  assert (Hst : lookup "factory"
                  (options (mergeDeep this [("options", VObj [("factory", f)])])) = Some f).
  { rewrite lookup_mergeDeep_single. unfold has_key in Hfac.
    now destruct (lookup "factory" (options this)). }
  apply collect_fields_shape in Hf. destruct Hf as [[_ ->]|[F [-> _]]]; [exact Hst|].
  unfold wrap_fields. rewrite mergeDeep_single_other by discriminate. exact Hst.
Qed.

(** What a field contributes to the realized options is what its own
    [getOptions] returns, called with the resolved provider and flag of its
    parent. *)
Lemma getOptions_field_result (this : BaseBuilder) p c (conf : obj) key field :
  well_formed this ->
  getOptions this p c = Ok conf ->
  lookup key (_fieldBuilders this) = Some field ->
  exists o,
    getOptions field (resolve_provider this p)
      (Some (resolve_disableTemplates this c)) = Ok o
    /\ getIn ["fields"; key] (VObj conf) = VObj o.
Proof.
  intros (_ & _ & Wfields & Wnd) Hconf Hl. apply lookup_In in Hl.
  rewrite getOptions_eq in Hconf.
  destruct (missing_provider this p c); [discriminate|].
  destruct (collect_fields _ (_fieldBuilders this) []) as [fields|e] eqn:Hf;
    cbn [bind] in Hconf; [|discriminate].
  apply collect_fields_shape in Hf. destruct Hf as [[Hnil _]|[F [-> HF]]].
  { rewrite Hnil in Hl. destruct Hl. }
  destruct (collect_plain_lookup _ _ _ _ _ _ HF Wnd Hl) as (o & Ho & HFo).
  exists o. split; [exact Ho|].
  simpl. rewrite (finish_options_fields this _ _ F conf Wfields Hconf).
  now rewrite HFo.
Qed.

Lemma getIn_fields_cons (key : string) (rest : list string) (v : jsval) :
  getIn (fields_path (key :: rest)) v = getIn (fields_path rest) (getIn ["fields"; key] v).
Proof.
  simpl. destruct v; try (now destruct (fields_path rest)).
  destruct (lookup "fields" kvs) as [v'|]; [|now destruct (fields_path rest)].
  destruct v'; try (now destruct (fields_path rest)).
  destruct (lookup key kvs0); [reflexivity | now destruct (fields_path rest)].
Qed.

(** At any depth: the options of a descendant, as they sit in the realized
    options of the root, are what the descendant's own [getOptions]
    returns, called with the flag the root resolved, and with the provider
    the root resolved when there is one. *)
Lemma getOptions_descendant (path : list string) (this : BaseBuilder) p c (conf : obj) d :
  getOptions this p c = Ok conf ->
  well_formed_along this path ->
  descend this path = Some d ->
  path <> [] ->
  exists p' o,
    getOptions d p' (Some (resolve_disableTemplates this c)) = Ok o
    /\ getIn (fields_path path) (VObj conf) = VObj o
    /\ (forall P, resolve_provider this p = Some P -> p' = Some P).
Proof.
  revert this p c conf.
  induction path as [|key rest IH]; intros this p c conf Hconf Hwf Hd Hne;
    [now destruct Hne|].
  simpl in Hwf, Hd. destruct Hwf as [W Hrest].
  destruct (lookup key (_fieldBuilders this)) as [field|] eqn:Hl; [|discriminate].
  destruct (getOptions_field_result this p c conf key field W Hconf Hl) as (o1 & Ho1 & Hat).
  rewrite getIn_fields_cons, Hat.
  destruct rest as [|key' rest'].
  - simpl in Hd. injection Hd as <-.
    exists (resolve_provider this p), o1. split; [exact Ho1|]. split; [reflexivity|].
    intros P HP. exact HP.
  - destruct (IH field _ _ o1 Ho1 Hrest Hd ltac:(discriminate)) as (p' & o & Ho & Hpath & Hp).
    exists p', o. split; [exact Ho|]. split; [exact Hpath|].
    intros P HP. apply Hp. now rewrite HP.
Qed.

(** Called without a provider, a builder realizes as if it were handed its
    own. *)
Lemma getOptions_own_provider (this : BaseBuilder) c :
  getOptions this None c = getOptions this (_lazyTemplateProvider this) c.
Proof.
  rewrite !getOptions_eq. unfold missing_provider.
  assert (Hr : resolve_provider this (_lazyTemplateProvider this) = resolve_provider this None).
  { unfold resolve_provider. now destruct (_lazyTemplateProvider this). }
  now rewrite Hr.
Qed.

(** C7, as the code has it.  Take a root assembled by a chain of calls from
    [new BaseBuilder()] on which templates are not disabled, and a field
    builder with a template callback and no concrete factory.  Then
    [b.setLazyTemplateProvider(P).setField(key, fieldBuilder).getOptions()],
    when it returns, has the callback applied to [P] at
    [fields.key.factory].  More generally, in a realization that returns,
    what sits under the path of a descendant, at any depth, is what the
    descendant's own [getOptions] returns when it is called with the
    [disableTemplates] the root resolved, and with the provider the root
    resolved when there is one.  When the root resolved no provider, each
    of its fields is realized with its own [lazyTemplateProvider], and
    that one reaches every descendant below the field. *)
Theorem provider_reaches_fields :
  (forall ms this P key fieldBuilder cb b' conf,
     chain initialState ms = Ok this ->
     _disableTemplates this = false ->
     _templateProviderCallback fieldBuilder = Some cb ->
     has_key "factory" (options fieldBuilder) = false ->
     chain this [SetLazyTemplateProvider P; SetField key fieldBuilder] = Ok b' ->
     getOptions b' None None = Ok conf ->
     exists f, cb (Some P) = Ok f
               /\ getIn ["fields"; key; "factory"] (VObj conf) = f)
  /\ (forall this p c conf path d,
        getOptions this p c = Ok conf ->
        well_formed_along this path ->
        descend this path = Some d ->
        path <> [] ->
        exists p' o,
          getOptions d p' (Some (resolve_disableTemplates this c)) = Ok o
          /\ getIn (fields_path path) (VObj conf) = VObj o
          /\ (forall P, resolve_provider this p = Some P -> p' = Some P))
  /\ (forall this p c conf key field,
        getOptions this p c = Ok conf ->
        well_formed this ->
        resolve_provider this p = None ->
        lookup key (_fieldBuilders this) = Some field ->
        exists o,
          getOptions field (_lazyTemplateProvider field)
            (Some (resolve_disableTemplates this c)) = Ok o
          /\ getIn ["fields"; key] (VObj conf) = VObj o
          /\ forall Q rest d,
               _lazyTemplateProvider field = Some Q ->
               well_formed_along field rest ->
               descend field rest = Some d ->
               rest <> [] ->
               exists o',
                 getOptions d (Some Q) (Some (resolve_disableTemplates this c)) = Ok o'
                 /\ getIn (fields_path (key :: rest)) (VObj conf) = VObj o').
Proof.
  split; [|split].
  - intros ms this P key fieldBuilder cb b' conf Hc Hdis Hcb Hfac Hb' Hconf.
    pose proof (chain_well_formed ms initialState this Hc well_formed_initialState) as W.
    pose proof (chain_well_formed _ this b' Hb' W) as (_ & _ & Wfields & Wnd).
    simpl in Hb'.
    destruct (setField (setLazyTemplateProvider this P) key fieldBuilder)
      as [b1|e] eqn:Hset; simpl in Hb'; [|discriminate].
    injection Hb' as ->. apply setField_spec in Hset. simpl in Hset.
    destruct Hset as (_ & Hfb & _ & _ & Hd' & Hp').
    assert (Hprov : resolve_provider b' None = Some P) by (unfold resolve_provider; exact Hp').
    assert (Hres : resolve_disableTemplates b' None = false)
      by (unfold resolve_disableTemplates; congruence).
    rewrite getOptions_eq in Hconf.
    destruct (missing_provider b' None None); [discriminate|].
    rewrite Hprov, Hres in Hconf.
    destruct (collect_fields _ (_fieldBuilders b') []) as [fields|e] eqn:Hf;
      simpl in Hconf; [|discriminate].
    assert (Hin : In (key, fieldBuilder) (_fieldBuilders b')).
    { rewrite Hfb. apply lookup_In, lookup_map_set_eq. }
    apply collect_fields_shape in Hf. destruct Hf as [[Hnil _]|[F [-> HF]]].
    { rewrite Hnil in Hin. destruct Hin. }
    destruct (collect_plain_lookup _ _ _ _ _ _ HF Wnd Hin) as (o & Ho & HFo).
    destruct (getOptions_factory fieldBuilder cb (Some P) o Hcb Hfac Ho) as (f & Hf & Hof).
    exists f. split; [exact Hf|].
    simpl. rewrite (finish_options_fields b' _ _ F conf Wfields Hconf).
    rewrite HFo, Hof. reflexivity.
  - intros this p c conf path d. apply getOptions_descendant.
  - intros this p c conf key field Hconf W Hnone Hl.
    destruct (getOptions_field_result this p c conf key field W Hconf Hl) as (o & Ho & Hat).
    rewrite Hnone in Ho.
    exists o. split; [now rewrite <- getOptions_own_provider|]. split; [exact Hat|].
    intros Q rest d HQ Hwf Hd Hne.
    destruct (getOptions_descendant rest field None _ o d Ho Hwf Hd Hne)
      as (p' & o' & Ho' & Hpath & Hp).
    exists o'. simpl resolve_disableTemplates in Ho'.
    rewrite (Hp Q) in Ho' by (unfold resolve_provider; exact HQ).
    split; [exact Ho'|]. now rewrite getIn_fields_cons, Hat.
Qed.

(** ** Builders on the heap *)

Lemma call_allocates (h : heap) (this : ref) (m : method ref) (h' : heap) (r : ref) :
  call h this m = Ok (h', r) ->
  exists state m' newState,
    deref h this = Ok state
    /\ load_args h m = Ok m'
    /\ invoke state m' = Ok newState
    /\ h' = h ++ [newState]
    /\ r = List.length h.
Proof.
  unfold call, new_BaseBuilder.
  destruct (deref h this) as [state|e]; simpl; [|discriminate].
  destruct (load_args h m) as [m'|e]; simpl; [|discriminate].
  destruct (invoke state m') as [newState|e] eqn:Hinv; simpl; [|discriminate].
  intros H. injection H as <- <-. exists state, m', newState. auto 10.
Qed.

Lemma deref_Ok (h : heap) (r : ref) (state : BaseBuilder) :
  deref h r = Ok state <-> nth_error h r = Some state.
Proof.
  unfold deref. destruct (nth_error h r); split; intros H; try discriminate;
    now injection H as ->.
Qed.

Lemma deref_extend (h ext : heap) (r : ref) :
  r < List.length h -> deref (h ++ ext) r = deref h r.
Proof. intros Hr. unfold deref. now rewrite nth_error_app1. Qed.

(** Calls only ever add objects to the heap. *)
Lemma calls_extend (cs : list (ref * method ref)) (h h2 : heap) :
  calls h cs = Ok h2 -> exists ext, h2 = h ++ ext.
Proof.
  revert h. induction cs as [|[this m] tl IH]; intros h; simpl.
  - intros H. injection H as <-. exists []. now rewrite app_nil_r.
  - destruct (call h this m) as [[h1 r]|e] eqn:Hc; simpl; [|discriminate].
    intros H. destruct (IH _ H) as [ext ->].
    apply call_allocates in Hc. destruct Hc as (_ & _ & st & _ & _ & _ & -> & _).
    exists (st :: ext). now rewrite <- app_assoc.
Qed.

(** *** Programs over the objects *)

Lemma assign_fresh (st : object_state) (h : objects) :
  assign (List.length h) st (h ++ [None]) = h ++ [Some st].
Proof. induction h as [|o tl IH]; simpl; [reflexivity | now rewrite IH]. Qed.

Lemma construct_run (st : object_state) (h : objects) :
  construct st h = (Ok (List.length h), h ++ [Some st]).
Proof.
  unfold construct, bind_prog, allocate, set_state, unit_prog.
  rewrite nth_error_app2 by lia. rewrite Nat.sub_diag. simpl.
  now rewrite assign_fresh.
Qed.

Lemma from_state_run (f : BaseBuilder -> BaseBuilder) (this : ref) (h : objects) :
  from_state f this h
  = match nth_error h this with
    | Some (Some st) =>
        (Ok (List.length h),
         h ++ [Some {| shell := f (shell st); fieldRefs := fieldRefs st |}])
    | _ => (Err JsTypeError, h)
    end.
Proof.
  unfold from_state, bind_prog, get_state.
  destruct (nth_error h this) as [[st|]|]; [apply construct_run | reflexivity | reflexivity].
Qed.

Lemma In_map_set {V : Type} (k key : string) (v x : V) (m : list (string * V)) :
  In (k, v) (map_set key x m) -> (k, v) = (key, x) \/ In (k, v) m.
Proof.
  induction m as [|[k' v'] tl IH]; simpl.
  - intros [H|[]]. left. now symmetry.
  - destruct (String.eqb key k'); simpl.
    + intros [H|H]; [left; now symmetry | right; now right].
    + intros [H|H]; [right; now left|]. destruct (IH H); [now left | right; now right].
Qed.

(** What the body of a method does to the store: when it returns, it has
    read the receiver and constructed one object after the existing ones;
    when it throws, it has done nothing. *)
Lemma send_returns (this : ref) (m : method ref) (h h' : objects) (r : ref) :
  send this m h = (Ok r, h') ->
  exists st new,
    nth_error h this = Some (Some st)
    /\ r = List.length h
    /\ h' = h ++ [Some new]
    /\ forall key r', In (key, r') (fieldRefs new) ->
         In (key, r') (fieldRefs st) \/ m = SetField key r'.
Proof.
  destruct m; simpl send;
    try (rewrite from_state_run; destruct (nth_error h this) as [[st|]|]; try discriminate;
         intros H; injection H as <- <-; eexists; eexists;
         split; [reflexivity|]; split; [reflexivity|]; split; [reflexivity|];
         intros key r' Hin; now left).
  - unfold bind_prog, get_state, throw, pure_result.
    destruct (nth_error h this) as [[st|]|]; try discriminate.
    destruct (truthy (select_options_slot (shell st))); [discriminate|].
    destruct (push_option (shell st) "order" (VStr key)) as [s|e]; [|discriminate].
    rewrite construct_run. intros H. injection H as <- <-.
    eexists; eexists. split; [reflexivity|]. split; [reflexivity|]. split; [reflexivity|].
    simpl. intros k r' Hin. apply In_map_set in Hin.
    destruct Hin as [Heq|Hin]; [right; now injection Heq as -> -> | now left].
  - unfold bind_prog, get_state, throw, pure_result.
    destruct (nth_error h this) as [[st|]|]; try discriminate.
    destruct (negb (isEmpty (fieldRefs st))); [discriminate|].
    destruct (object_getOptions h selectBuilder None None) as [o|e]; [|discriminate].
    destruct (push_option (shell st) "options" (VObj o)) as [s|e]; [|discriminate].
    rewrite construct_run. intros H. injection H as <- <-.
    eexists; eexists. split; [reflexivity|]. split; [reflexivity|]. split; [reflexivity|].
    intros k r' Hin. now left.
  - unfold bind_prog.
    destruct (object_getOptions h selectBuilder None None) as [o|e]; [|discriminate].
    rewrite from_state_run. destruct (nth_error h this) as [[st|]|]; try discriminate.
    intros H. injection H as <- <-.
    eexists; eexists. split; [reflexivity|]. split; [reflexivity|]. split; [reflexivity|].
    intros k r' Hin. now left.
Qed.

Lemma send_throws (this : ref) (m : method ref) (h h' : objects) (e : exn) :
  send this m h = (Err e, h') -> h' = h.
Proof.
  destruct m; simpl send;
    try (rewrite from_state_run; destruct (nth_error h this) as [[st|]|]; try discriminate;
         intros H; now injection H as _ <-).
  - unfold bind_prog, get_state, throw, pure_result.
    destruct (nth_error h this) as [[st|]|]; try (intros H; now injection H as _ <-).
    destruct (truthy (select_options_slot (shell st))); [intros H; now injection H as _ <-|].
    destruct (push_option (shell st) "order" (VStr key)) as [s|e0];
      [rewrite construct_run; discriminate | intros H; now injection H as _ <-].
  - unfold bind_prog, get_state, throw, pure_result.
    destruct (nth_error h this) as [[st|]|]; try (intros H; now injection H as _ <-).
    destruct (negb (isEmpty (fieldRefs st))); [intros H; now injection H as _ <-|].
    destruct (object_getOptions h selectBuilder None None) as [o|e0];
      [|intros H; now injection H as _ <-].
    destruct (push_option (shell st) "options" (VObj o)) as [s|e0];
      [rewrite construct_run; discriminate | intros H; now injection H as _ <-].
  - unfold bind_prog.
    destruct (object_getOptions h selectBuilder None None) as [o|e0];
      [|intros H; now injection H as _ <-].
    rewrite from_state_run. destruct (nth_error h this) as [[st|]|]; try discriminate;
      intros H; now injection H as _ <-.
Qed.

(** *** What realization reads *)

Lemma each_field_ext {A B : Type} (f g : A -> result B) (l : list (string * A)) :
  (forall key a, In (key, a) l -> f a = g a) ->
  each_field f l = each_field g l.
Proof.
  induction l as [|[key a] tl IH]; intros Hfg; simpl; [reflexivity|].
  rewrite (Hfg key a) by now left.
  destruct (g a); simpl; [|reflexivity].
  rewrite IH; [reflexivity|]. intros k x Hin. apply (Hfg k x). now right.
Qed.

(** The tree under an object is made of older objects only, so it is the
    same in any store that extends this one, whatever comes after. *)
Lemma snapshot_stable (h ext : objects) :
  store_ok h ->
  forall fuel fuel' r,
    r < fuel -> r < fuel' -> r < List.length h ->
    snapshot fuel' (h ++ ext) r = snapshot fuel h r.
Proof.
  intros Hok. induction fuel as [|n IH]; intros fuel' r Hf Hf' Hr; [lia|].
  destruct fuel' as [|n']; [lia|]. simpl.
  rewrite nth_error_app1 by assumption.
  destruct (nth_error h r) as [[st|]|] eqn:Hst; try reflexivity.
  rewrite (each_field_ext (snapshot n' (h ++ ext)) (snapshot n h)); [reflexivity|].
  intros key r' Hin. destruct (Hok r st Hst key r' Hin) as [Hlt _].
  apply IH; lia.
Qed.

Lemma store_ok_construct (h : objects) (this : ref) (m : method ref)
  (st new : object_state) :
  store_ok h ->
  args_ok h m ->
  nth_error h this = Some (Some st) ->
  (forall key r', In (key, r') (fieldRefs new) ->
     In (key, r') (fieldRefs st) \/ m = SetField key r') ->
  store_ok (h ++ [Some new]).
Proof.
  intros Hok Hargs Hthis Hrefs r st0 Hr key r' Hin.
  assert (Hlt : this < List.length h) by (apply nth_error_Some; congruence).
  assert (Hold : forall r1, (exists st1, nth_error h r1 = Some (Some st1)) ->
            exists st1, nth_error (h ++ [Some new]) r1 = Some (Some st1)).
  { intros r1 [st1 H1]. exists st1. rewrite nth_error_app1; [exact H1|].
    apply nth_error_Some. congruence. }
  destruct (Nat.lt_ge_cases r (List.length h)) as [Hin_h|Hnew].
  - rewrite nth_error_app1 in Hr by assumption.
    destruct (Hok r st0 Hr key r' Hin) as [Hlt' Hex]. split; [exact Hlt' | now apply Hold].
  - assert (Hr_eq : r = List.length h).
    { assert (r < List.length (h ++ [Some new])) by (apply nth_error_Some; congruence).
      rewrite length_app in H. simpl in H. lia. }
    subst r. rewrite nth_error_app2, Nat.sub_diag in Hr by lia.
    simpl in Hr. injection Hr as <-.
    destruct (Hrefs key r' Hin) as [Hst| ->].
    + destruct (Hok this st Hthis key r' Hst) as [Hlt' Hex].
      split; [lia | now apply Hold].
    + simpl in Hargs. split; [|now apply Hold].
      destruct Hargs as [st1 H1]. apply nth_error_Some. congruence.
Qed.

(** C5.  A method call never changes a builder that was there.  Run on a
    store of builder objects, the body of every method, when it returns,
    has constructed exactly one object, the builder it returns, and has
    assigned into no other: every older object has the state it had, and
    [getType()] and [getOptions()] on the receiver, and on any older
    builder, give what they gave before the call.  When the method throws,
    the store is as it was. *)
Theorem method_call_leaves_receiver_unchanged
  (h : objects) (this : ref) (m : method ref) :
  store_ok h ->
  args_ok h m ->
  (forall r h',
     send this m h = (Ok r, h') ->
     nth_error h r = None
     /\ r <> this
     /\ (exists newState, nth_error h' r = Some (Some newState))
     /\ (forall r0 o, nth_error h r0 = Some o -> nth_error h' r0 = Some o)
     /\ store_ok h'
     /\ (forall r0, r0 < List.length h ->
           object_getType h' r0 = object_getType h r0
           /\ forall p c, object_getOptions h' r0 p c = object_getOptions h r0 p c)
     /\ object_getType h' this = object_getType h this
     /\ (forall p c, object_getOptions h' this p c = object_getOptions h this p c))
  /\ (forall e h', send this m h = (Err e, h') -> h' = h).
Proof.
  intros Hok Hargs. split; [|intros e h'; apply send_throws].
  intros r h' Hsend. apply send_returns in Hsend.
  destruct Hsend as (st & new & Hthis & -> & -> & Hrefs).
  assert (Hlt : this < List.length h) by (apply nth_error_Some; congruence).
  assert (Hold : forall r0, r0 < List.length h ->
            object_getType (h ++ [Some new]) r0 = object_getType h r0
            /\ forall p c, object_getOptions (h ++ [Some new]) r0 p c
                           = object_getOptions h r0 p c).
  { intros r0 Hr0. unfold object_getType, object_getOptions.
    rewrite (snapshot_stable h [Some new] Hok (List.length h) _ r0 Hr0);
      [auto | rewrite length_app; simpl; lia | exact Hr0]. }
  split; [apply nth_error_None; lia|].
  split; [lia|].
  split; [exists new; rewrite nth_error_app2 by lia; now rewrite Nat.sub_diag|].
  split.
  { intros r0 o Hr0. rewrite nth_error_app1; [exact Hr0|].
    apply nth_error_Some. congruence. }
  split; [exact (store_ok_construct h this m st new Hok Hargs Hthis Hrefs)|].
  split; [exact Hold|].
  split; apply (Hold this Hlt).
Qed.

(** C9.  [addSelectOption(opt)] calls [opt.getOptions()] with no provider
    and no config, at once, and appends what it returns to the [options]
    list of the new builder.  Whatever is called afterwards, on [opt] or on
    any other builder, the new builder keeps that list and realizes it:
    the entries there were, followed by the snapshot; the snapshot alone
    when there was no select option before. *)
Theorem addSelectOption_snapshot
  (h : heap) (this opt : ref) (h1 : heap) (r : ref) :
  call h this (AddSelectOption opt) = Ok (h1, r) ->
  exists state optState snapshot,
    deref h this = Ok state
    /\ deref h opt = Ok optState
    /\ getOptions optState None None = Ok snapshot
    /\ forall cs h2,
         calls h1 cs = Ok h2 ->
         (exists newState,
            deref h2 r = Ok newState
            /\ lookup "options" (options newState)
               = Some (VArr (list_slot "options" (options state) ++ [VObj snapshot])))
         /\ (forall p c conf,
               getOptions_at h2 r p c = Ok conf ->
               lookup "options" conf
               = Some (VArr (list_slot "options" (options state) ++ [VObj snapshot])))
         /\ (lookup "options" (options state) = None ->
             forall p c conf,
               getOptions_at h2 r p c = Ok conf ->
               lookup "options" conf = Some (VArr [VObj snapshot])).
Proof.
  intros Hc. apply call_allocates in Hc.
  destruct Hc as (state & m' & newState & Hthis & Hargs & Hinv & -> & ->).
  simpl in Hargs.
  destruct (deref h opt) as [optState|e] eqn:Hopt; simpl in Hargs; [|discriminate].
  injection Hargs as <-. simpl in Hinv.
  apply addSelectOption_spec in Hinv.
  destruct Hinv as (_ & snapshot & Hsnap & _ & Hstored & _).
  exists state, optState, snapshot.
  split; [exact Hthis|]. split; [reflexivity|]. split; [exact Hsnap|].
  intros cs h2 Hcs. apply calls_extend in Hcs. destruct Hcs as [ext ->].
  assert (Hd : deref ((h ++ [newState]) ++ ext) (List.length h) = Ok newState).
  { rewrite deref_extend by (rewrite length_app; simpl; lia).
    apply deref_Ok. rewrite nth_error_app2 by lia. now rewrite Nat.sub_diag. }
  assert (Hreal : forall p c conf,
             getOptions_at ((h ++ [newState]) ++ ext) (List.length h) p c = Ok conf ->
             lookup "options" conf
             = Some (VArr (list_slot "options" (options state) ++ [VObj snapshot]))).
  { intros p c conf Hconf. unfold getOptions_at in Hconf.
    rewrite Hd in Hconf. simpl in Hconf.
    rewrite (getOptions_lookup_other newState p c conf "options")
      by (discriminate || assumption).
    exact Hstored. }
  split; [exists newState; split; [exact Hd | exact Hstored]|].
  split; [exact Hreal|].
  intros Hnone p c conf Hconf. rewrite (Hreal p c conf Hconf).
  unfold list_slot. now rewrite Hnone.
Qed.

End Facts.

(** * The theorems at work on the samples *)

Lemma getType_without_type_sample :
  getType (H := sample) initialState = Err JsTypeError.
Proof.
  apply (@getType_without_type sample initialState); reflexivity.
Defined.

Lemma makeOptional_wraps_type_sample :
  getType (H := sample) (makeOptional (makeOptional sample_leaf))
  = maybe (Collaborators := sample) (VArr [VRef 1])
  /\ getType (H := sample) (makeOptional sample_leaf) = Ok (VArr [VRef 1]).
Proof.
  split; [|reflexivity].
  apply (@makeOptional_wraps_type sample).
  - intros t t'. destruct t; simpl; intros H; injection H as <-; reflexivity.
  - reflexivity.
Defined.

Lemma getOptions_missing_provider_sample :
  getOptions (H := sample) sample_templated None None = Err (JsError msg_no_provider).
Proof.
  apply (@getOptions_missing_provider_iff sample sample_templated None None).
  - intros key field [].
  - intros cb H. injection H as <-. exists VNull. reflexivity.
  - repeat split; simpl; congruence.
Defined.

Lemma fields_and_select_options_exclusive_sample :
  addSelectOption (H := sample) sample_one_field sample_yes
  = Err (JsError msg_select_after_field)
  /\ (exists b', setField sample_one_field "b" sample_leaf = Ok b')
  /\ setField sample_select "a" sample_leaf = Err (JsError msg_field_after_select)
  /\ (exists b', addSelectOption (H := sample) sample_select sample_yes = Ok b').
Proof.
  pose proof (@fields_and_select_options_exclusive sample
                [SetField "a" sample_leaf] sample_one_field eq_refl)
    as (_ & Hsel & Hfield & _).
  pose proof (@fields_and_select_options_exclusive sample
                [AddSelectOption sample_yes] sample_select eq_refl)
    as (Hfail & _ & _ & Hadd).
  split; [apply Hsel; reflexivity|].
  split; [apply Hfield; reflexivity|].
  split; [apply Hfail; reflexivity|].
  apply (proj1 (Hadd eq_refl sample_yes) (options sample_yes)). reflexivity.
Defined.

(** Counterexample to the unconditional form of C3: on a fresh builder,
    with no field set, [addSelectOption] of a builder whose template
    callback has no provider throws, because the option is realized at
    once. *)
Lemma addSelectOption_can_fail_without_fields :
  chain (H := sample) initialState [] = Ok initialState
  /\ existsb is_SetField (@nil (method BaseBuilder)) = false
  /\ addSelectOption (H := sample) initialState sample_templated
     = Err (JsError msg_no_provider).
Proof. repeat split. Qed.

Lemma setField_appends_to_order_sample :
  lookup "order" (options_of (getOptions (H := sample) sample_ab None None))
  = Some (VArr [VStr "a"; VStr "b"]).
Proof.
  apply (proj2 (@setField_appends_to_order sample initialState)
           "a" "b" sample_leaf sample_leaf sample_ab None None); reflexivity.
Defined.

Lemma method_call_leaves_receiver_unchanged_sample :
  object_getOptions (H := sample)
    (snd (send (H := sample) 0 (AddSelectOption 1) sample_objects)) 0 None None
  = object_getOptions (H := sample) sample_objects 0 None None
  /\ object_getOptions (H := sample)
       (snd (send (H := sample) 0 (AddSelectOption 1) sample_objects)) 1 None None
     = Ok [("value", VBool true); ("text", VStr "Yes")]
  /\ object_getOptions (H := sample)
       (snd (send (H := sample) 0 (AddSelectOption 1) sample_objects)) 2 None None
     = Ok [("options", VArr [VObj [("value", VBool true); ("text", VStr "Yes")]])].
Proof.
  assert (Hok : store_ok sample_objects).
  { intros r st Hr key r' Hin.
    destruct r as [|[|[|r]]]; simpl in Hr; try discriminate;
      injection Hr as <-; destruct Hin. }
  assert (Hargs : args_ok sample_objects (AddSelectOption 1)).
  { eexists. reflexivity. }
  destruct (proj1 (@method_call_leaves_receiver_unchanged sample
                     sample_objects 0 (AddSelectOption 1) Hok Hargs)
              2 (snd (send (H := sample) 0 (AddSelectOption 1) sample_objects)) eq_refl)
    as (_ & _ & _ & _ & _ & Hold & _ & Hopt).
  split; [apply Hopt|].
  split; [|reflexivity].
  rewrite (proj2 (Hold 1 ltac:(simpl; lia)) None None). reflexivity.
Defined.

Lemma provider_reaches_fields_sample :
  (exists f,
     sample_callback (Some 7) = Ok f
     /\ getIn ["fields"; "f"; "factory"]
          (VObj (options_of (getOptions (H := sample) sample_provided None None))) = f)
  /\ (exists o,
        getOptions (H := sample) sample_templated (Some 5) (Some false) = Ok o
        /\ getIn ["fields"; "c"; "fields"; "g"]
             (VObj (options_of (getOptions (H := sample) sample_nested (Some 5) None)))
           = VObj o)
  /\ (exists o,
        getOptions (H := sample) sample_templated (Some 9) (Some false) = Ok o
        /\ getIn ["fields"; "c"; "fields"; "g"]
             (VObj (options_of (getOptions (H := sample) sample_nested None None)))
           = VObj o).
Proof.
  assert (Wroot : well_formed sample_nested).
  { apply (@chain_well_formed sample [SetField "c" sample_middle] initialState
             sample_nested eq_refl well_formed_initialState). }
  assert (Wmiddle : well_formed sample_middle).
  { apply (@chain_well_formed sample
             [SetLazyTemplateProvider 9; SetField "g" sample_templated] initialState
             sample_middle eq_refl well_formed_initialState). }
  split; [|split].
  - apply (proj1 (@provider_reaches_fields sample)
             [] initialState 7 "f" sample_templated sample_callback sample_provided);
      reflexivity.
  - destruct (proj1 (proj2 (@provider_reaches_fields sample))
                sample_nested (Some 5) None
                (options_of (getOptions (H := sample) sample_nested (Some 5) None))
                ["c"; "g"] sample_templated eq_refl
                (conj Wroot (conj Wmiddle I)) eq_refl ltac:(discriminate))
      as (p' & o & Ho & Hpath & Hp).
    rewrite (Hp 5 eq_refl) in Ho. exists o. split; [exact Ho | exact Hpath].
  - destruct (proj2 (proj2 (@provider_reaches_fields sample))
                sample_nested None None
                (options_of (getOptions (H := sample) sample_nested None None))
                "c" sample_middle eq_refl Wroot eq_refl eq_refl)
      as (_ & _ & _ & Hbelow).
    destruct (Hbelow 9 ["g"] sample_templated eq_refl (conj Wmiddle I) eq_refl
                ltac:(discriminate))
      as (o' & Ho' & Hpath').
    exists o'. split; [exact Ho' | exact Hpath'].
Defined.

(** Counterexample to the unconditional form of C7.  On a root with
    [_disableTemplates()] the field's callback is never applied, provider
    or not: [fields.f] has no [factory].  And a root without a provider
    hands [null] to its field [c], whose own provider 9 then goes to [g]:
    the factory of the descendant [g] is the callback applied to 9, not to
    what the root resolved. *)
Lemma provider_not_always_propagated :
  getOptions (H := sample) sample_disabled None None
  = Ok [("order", VArr [VStr "f"]); ("fields", VObj [("f", VObj [])])]
  /\ _lazyTemplateProvider sample_disabled = Some 7
  /\ resolve_provider sample_nested None = None
  /\ getIn ["fields"; "c"; "fields"; "g"; "factory"]
       (VObj (options_of (getOptions (H := sample) sample_nested None None)))
     = VRef 9.
Proof. repeat split. Qed.

Lemma addValidationErrorMessageFn_realized_sample :
  lookup "error" (options_of (getOptions (H := sample) sample_two_errors None None))
  = Some (combine (Collaborators := sample) [VRef 1; VRef 2]).
Proof.
  apply (proj2 (proj2 (@addValidationErrorMessageFn_realized sample initialState (VRef 2)))
           1 None None).
  reflexivity.
Defined.

Lemma addSelectOption_snapshot_sample :
  lookup "options"
    (options_of (getOptions_at (H := sample) sample_heap_later 2 None None))
  = Some (VArr [VObj [("value", VBool true); ("text", VStr "Yes")]]).
Proof.
  destruct (@addSelectOption_snapshot sample sample_heap 0 1 sample_heap_selected 2 eq_refl)
    as (state & optState & snapshot & Hs & Ho & Hsnap & Hlater).
  injection Hs as <-. injection Ho as <-. injection Hsnap as <-.
  apply (proj2 (proj2 (Hlater sample_later_calls sample_heap_later eq_refl))
           eq_refl None None).
  reflexivity.
Defined.

Lemma setField_same_key_twice_sample :
  filter (fun e => String.eqb "k" (fst e)) (_fieldBuilders sample_k2) = [("k", sample_yes)]
  /\ lookup "order" (options sample_k2) = Some (VArr [VStr "k"; VStr "k"])
  /\ count_occ string_dec ["k"; "k"] "k" = 2.
Proof.
  pose proof (@setField_same_key_twice sample [] initialState "k"
                sample_leaf sample_yes sample_k1 sample_k2 eq_refl eq_refl eq_refl)
    as (Hone & Horder & _ & Hcount).
  repeat split; assumption.
Defined.

(** * Further properties of the builder *)

Section More.
Context {E : Collaborators}.

(** ** What realization reads *)

Lemma options_mergeDeep (st : BaseBuilder) (source : obj) :
  options (mergeDeep st source)
  = match lookup "options" source with
    | Some (VObj o) => merge_obj (options st) o
    | _ => options st
    end.
Proof. unfold mergeDeep. now destruct (lookup "options" source) as [[]|]. Qed.

Lemma finish_options_reads (b b' : BaseBuilder) provider (d : bool) (fields : obj) :
  _templateProviderCallback b' = _templateProviderCallback b ->
  options b' = options b ->
  finish_options b' provider d fields = finish_options b provider d fields.
Proof.
  intros Hcb Hop. unfold finish_options. rewrite Hcb, Hop.
  destruct (_templateProviderCallback b) as [cb|]; cbn [bind].
  - destruct (negb (has_key "factory" (options b)) && negb d); cbn [bind].
    + destruct (cb provider) as [f|e]; cbn [bind]; [|reflexivity].
      now rewrite !options_mergeDeep, Hop.
    + now rewrite !options_mergeDeep, Hop.
  - now rewrite !options_mergeDeep, Hop.
Qed.

(** [getOptions] reads the fields, the callback and the options of the
    state, and the resolved provider and flag: nothing else. *)
Lemma getOptions_reads (b b' : BaseBuilder) p p' c c' :
  _fieldBuilders b' = _fieldBuilders b ->
  _templateProviderCallback b' = _templateProviderCallback b ->
  options b' = options b ->
  resolve_provider b' p' = resolve_provider b p ->
  resolve_disableTemplates b' c' = resolve_disableTemplates b c ->
  getOptions b' p' c' = getOptions b p c.
Proof.
  intros Hfb Hcb Hop Hp Hd. rewrite !getOptions_eq.
  unfold missing_provider. rewrite Hfb, Hcb, Hop, Hp, Hd.
  destruct (negb (has_key "factory" (options b)) && is_some (_templateProviderCallback b)
            && negb (is_some (resolve_provider b p))
            && negb (resolve_disableTemplates b c)); [reflexivity|].
  destruct (collect_fields _ (_fieldBuilders b) []) as [fields|e]; cbn [bind]; [|reflexivity].
  now apply finish_options_reads.
Qed.

(** X1.  What is passed to [getOptions] wins over what the builder holds: a
    provider argument makes the builder's own provider irrelevant, and a
    [disableTemplates] in the config, true or false, makes the builder's
    own flag irrelevant. *)
Theorem getOptions_arguments_take_precedence (b : BaseBuilder)
  (P Q : Provider) (d : bool) (p : option Provider) (c : option bool) :
  getOptions (setLazyTemplateProvider b Q) (Some P) c = getOptions b (Some P) c
  /\ getOptions (disableTemplates b) p (Some d) = getOptions b p (Some d).
Proof. split; now apply getOptions_reads. Qed.

(** ** Templates disabled *)

Lemma collect_fields_ext realize realize' entries (acc : obj) :
  Forall (fun entry => realize (snd entry) = realize' (snd entry)) entries ->
  collect_fields realize entries acc = collect_fields realize' entries acc.
Proof.
  intros Hall. revert acc.
  induction Hall as [|[key field] tl Hhd _ IH]; intros acc; [reflexivity|].
  rewrite !collect_fields_cons. simpl in Hhd. rewrite Hhd.
  destruct (realize' field); cbn [bind]; [apply IH | reflexivity].
Qed.

Lemma missing_provider_disabled (b : BaseBuilder) p :
  missing_provider b p (Some true) = false.
Proof. unfold missing_provider. simpl. now rewrite andb_false_r. Qed.

Lemma finish_options_disabled (b : BaseBuilder) provider (fields : obj) :
  finish_options b provider true fields = Ok (options (mergeDeep b fields)).
Proof.
  unfold finish_options. destruct (_templateProviderCallback b); [|reflexivity].
  now rewrite andb_false_r.
Qed.

(** X2.  With templates disabled, by the config or by [_disableTemplates()]
    on the root, [getOptions] never throws, whatever the builder holds at
    any depth, and what it returns does not depend on the provider. *)
Theorem getOptions_disabled_total (b : BaseBuilder) :
  (forall p, exists conf, getOptions b p (Some true) = Ok conf)
  /\ (forall p p', getOptions b p (Some true) = getOptions b p' (Some true))
  /\ (forall p, exists conf, getOptions (disableTemplates b) p None = Ok conf)
  /\ (forall p p',
        getOptions (disableTemplates b) p None = getOptions (disableTemplates b) p' None).
Proof.
  assert (Hmain : (forall p, exists conf, getOptions b p (Some true) = Ok conf)
                  /\ (forall p p', getOptions b p (Some true) = getOptions b p' (Some true))).
  { induction b as [b IH] using BaseBuilder_fields_ind. split.
    - intros p. rewrite getOptions_eq, missing_provider_disabled.
      destruct (collect_fields_all_ok
                  (fun field => getOptions field (resolve_provider b p)
                                  (Some (resolve_disableTemplates b (Some true))))
                  (_fieldBuilders b) []) as [fields ->].
      + intros key field Hin. rewrite Forall_forall in IH.
        apply (IH (key, field) Hin).
      + cbn [bind]. simpl resolve_disableTemplates.
        rewrite finish_options_disabled. eauto.
    - intros p p'. rewrite !getOptions_eq, !missing_provider_disabled.
      simpl resolve_disableTemplates.
      rewrite (collect_fields_ext
                 (fun field => getOptions field (resolve_provider b p) (Some true))
                 (fun field => getOptions field (resolve_provider b p') (Some true))).
      + destruct (collect_fields _ (_fieldBuilders b) []); cbn [bind]; [|reflexivity].
        now rewrite !finish_options_disabled.
      + eapply Forall_impl; [|exact IH]. intros entry [_ Hind]. apply Hind. }
  destruct Hmain as [Htotal Hprov]. split; [exact Htotal|]. split; [exact Hprov|].
  assert (Hflag : forall p,
            getOptions (disableTemplates b) p None = getOptions b p (Some true))
    by (intros p; now apply getOptions_reads).
  split.
  - intros p. destruct (Htotal p) as [conf Hconf]. exists conf. now rewrite Hflag.
  - intros p p'. rewrite !Hflag. apply Hprov.
Qed.

(** ** A concrete factory and a lazy one *)

Lemma merge_val_scalar (existing value : jsval) :
  is_collection value = false -> merge_val existing value = value.
Proof. destruct value; simpl; try discriminate; reflexivity. Qed.

Lemma bind_ext {A B : Type} (r r' : result A) (k k' : A -> result B) :
  r = r' -> (forall a, k a = k' a) -> bind r k = bind r' k'.
Proof. intros <- Hk. destruct r; simpl; [apply Hk | reflexivity]. Qed.

Lemma getOptions_concrete (b : BaseBuilder) p c :
  has_key "factory" (options b) = true ->
  getOptions b p c
  = (fields <- collect_fields
                 (fun field => getOptions field (resolve_provider b p)
                                 (Some (resolve_disableTemplates b c)))
                 (_fieldBuilders b) [] ;;
     Ok (options (mergeDeep b fields))).
Proof.
  intros Hfac. rewrite getOptions_eq. unfold missing_provider, finish_options.
  rewrite Hfac. simpl negb. cbn [andb].
  destruct (collect_fields _ (_fieldBuilders b) []); cbn [bind]; [|reflexivity].
  now destruct (_templateProviderCallback b).
Qed.

(** X3.  A concrete template factory supersedes the lazy one, in whichever
    order the two are set: the callback is not consulted, its missing
    provider is no error, and the realized [factory] is the concrete one.
    With no fields the realized options are the stored ones. *)
Theorem concrete_factory_supersedes (b : BaseBuilder) (f : nat)
  (cb : templateCallback) (p : option Provider) (c : option bool) :
  setTemplateFactory (setLazyTemplateFactory b cb) (VRef f)
  = setLazyTemplateFactory (setTemplateFactory b (VRef f)) cb
  /\ getOptions (setLazyTemplateFactory (setTemplateFactory b (VRef f)) cb) p c
     = getOptions (setTemplateFactory b (VRef f)) p c
  /\ (forall conf,
        getOptions (setLazyTemplateFactory (setTemplateFactory b (VRef f)) cb) p c
        = Ok conf ->
        lookup "factory" conf = Some (VRef f))
  /\ (_fieldBuilders b = [] ->
      getOptions (setLazyTemplateFactory (setTemplateFactory b (VRef f)) cb) p c
      = Ok (options (setTemplateFactory b (VRef f)))).
Proof.
  assert (Hstored : lookup "factory" (options (setTemplateFactory b (VRef f)))
                    = Some (VRef f)).
  { unfold setTemplateFactory. rewrite lookup_mergeDeep_single.
    now destruct (lookup "factory" (options b)). }
  assert (Hfac : has_key "factory" (options (setTemplateFactory b (VRef f))) = true).
  { unfold has_key. now rewrite Hstored. }
  assert (Heq : getOptions (setLazyTemplateFactory (setTemplateFactory b (VRef f)) cb) p c
                = getOptions (setTemplateFactory b (VRef f)) p c).
  { rewrite (getOptions_concrete (setLazyTemplateFactory _ cb) p c Hfac).
    rewrite (getOptions_concrete (setTemplateFactory b (VRef f)) p c Hfac).
    apply bind_ext; [reflexivity|]. intros fields. now rewrite !options_mergeDeep. }
  split; [reflexivity|]. split; [exact Heq|]. split.
  - intros conf. rewrite Heq, (getOptions_concrete _ p c Hfac).
    destruct (collect_fields _ (_fieldBuilders (setTemplateFactory b (VRef f))) [])
      as [fields|e] eqn:Hf; cbn [bind]; [|discriminate].
    intros H. injection H as <-.
    apply collect_fields_shape in Hf. destruct Hf as [[_ ->]|[F [-> _]]]; [exact Hstored|].
    unfold wrap_fields. rewrite mergeDeep_single_other by discriminate. exact Hstored.
  - intros Hnil. rewrite Heq, (getOptions_concrete _ p c Hfac).
    replace (_fieldBuilders (setTemplateFactory b (VRef f))) with (@nil (string * BaseBuilder))
      by (symmetry; exact Hnil).
    reflexivity.
Qed.

(** ** Realizing types *)

Lemma collect_types_cons realize key field tl (acc : obj) :
  collect_types realize ((key, field) :: tl) acc
  = (t <- realize field ;; collect_types realize tl (map_set key t acc)).
Proof. reflexivity. Qed.

Lemma inner_type_eq (b : BaseBuilder) :
  inner_type b
  = if isEmpty (_fieldBuilders b) then call_type b VUndefined
    else subTypes <- collect_types getType (_fieldBuilders b) [] ;;
         call_type b (VObj subTypes).
Proof. reflexivity. Qed.

(** X4.  The type is realized lazily: the type constructor receives the
    error function the options hold when [getType] is called, also when it
    was set after [setType]; without fields it receives no sub-types. *)
Theorem getType_uses_latest_error (b : BaseBuilder) (tc : typeCombinator) (e : nat) :
  _fieldBuilders b = [] ->
  _isOptional b = false ->
  getType (setValidationErrorMessageFn (setType b tc) (VRef e)) = tc (VRef e) VUndefined
  /\ getType (setType (setValidationErrorMessageFn b (VRef e)) tc) = tc (VRef e) VUndefined.
Proof.
  intros Hf Hopt.
  assert (Herr : error_slot (setValidationErrorMessageFn b (VRef e)) = VRef e).
  { unfold error_slot. now rewrite setValidationErrorMessageFn_ref. }
  split.
  - rewrite getType_eq, inner_type_eq.
    replace (_isOptional (setValidationErrorMessageFn (setType b tc) (VRef e)))
      with (_isOptional b) by reflexivity.
    replace (_fieldBuilders (setValidationErrorMessageFn (setType b tc) (VRef e)))
      with (_fieldBuilders b) by reflexivity.
    rewrite Hopt, Hf. simpl isEmpty. cbv iota. unfold call_type.
    change (error_slot (setValidationErrorMessageFn (setType b tc) (VRef e)))
      with (error_slot (setValidationErrorMessageFn b (VRef e))).
    now rewrite Herr.
  - rewrite getType_eq, inner_type_eq.
    replace (_isOptional (setType (setValidationErrorMessageFn b (VRef e)) tc))
      with (_isOptional b) by reflexivity.
    replace (_fieldBuilders (setType (setValidationErrorMessageFn b (VRef e)) tc))
      with (_fieldBuilders b) by reflexivity.
    rewrite Hopt, Hf. simpl isEmpty. cbv iota. unfold call_type.
    change (error_slot (setType (setValidationErrorMessageFn b (VRef e)) tc))
      with (error_slot (setValidationErrorMessageFn b (VRef e))).
    now rewrite Herr.
Qed.

Lemma collect_types_all_ok realize entries (acc : obj) :
  (forall key field, In (key, field) entries -> exists t, realize field = Ok t) ->
  exists s, collect_types realize entries acc = Ok s.
Proof.
  revert acc. induction entries as [|[key field] tl IH]; intros acc Hall.
  - now exists acc.
  - rewrite collect_types_cons.
    destruct (Hall key field) as [t Ht]; [now left|]. rewrite Ht. cbn [bind].
    apply IH. intros k f Hin. apply (Hall k f). now right.
Qed.

(** X5.  [setTypeAndValidate(type, name)] realizes to
    [validation(type, error, name)] with the error function of the options;
    fields, if there are any, must realize but their types are not passed
    on. *)
Theorem setTypeAndValidate_realized (b : BaseBuilder) (type name : jsval) :
  _isOptional b = false ->
  (forall key field, In (key, field) (_fieldBuilders b) -> exists t, getType field = Ok t) ->
  getType (setTypeAndValidate b type name) = validation type (error_slot b) name.
Proof.
  intros Hopt Hall. rewrite getType_eq, inner_type_eq.
  replace (_isOptional (setTypeAndValidate b type name)) with (_isOptional b) by reflexivity.
  replace (_fieldBuilders (setTypeAndValidate b type name)) with (_fieldBuilders b)
    by reflexivity.
  rewrite Hopt. destruct (isEmpty (_fieldBuilders b)); [reflexivity|].
  destruct (collect_types_all_ok getType (_fieldBuilders b) [] Hall) as [s ->].
  reflexivity.
Qed.

Lemma collect_types_lookup_other realize entries (acc s : obj) (k : string) :
  collect_types realize entries acc = Ok s ->
  ~ In k (map fst entries) ->
  lookup k s = lookup k acc.
Proof.
  revert acc. induction entries as [|[key field] tl IH]; intros acc.
  - intros H _. now injection H as <-.
  - rewrite collect_types_cons. destruct (realize field) as [t|e]; cbn [bind]; [|discriminate].
    intros H Hnot. simpl in Hnot. rewrite (IH _ H) by tauto.
    apply lookup_map_set_neq. intuition congruence.
Qed.

Lemma collect_types_lookup realize entries (acc s : obj) (k : string) (field : BaseBuilder) :
  collect_types realize entries acc = Ok s ->
  NoDup (map fst entries) ->
  In (k, field) entries ->
  exists t, realize field = Ok t /\ lookup k s = Some t.
Proof.
  revert acc. induction entries as [|[key fld] tl IH]; intros acc; [intros _ _ []|].
  rewrite collect_types_cons.
  destruct (realize fld) as [t|e] eqn:Ht; cbn [bind]; [|discriminate].
  intros H Hnd [Heq|Hin]; inversion Hnd; subst.
  - injection Heq as -> ->. exists t. split; [assumption|].
    rewrite (collect_types_lookup_other _ _ _ _ _ H) by assumption.
    apply lookup_map_set_eq.
  - now apply (IH _ H).
Qed.

Lemma collect_types_keys realize entries (acc s : obj) :
  collect_types realize entries acc = Ok s ->
  NoDup (map fst acc ++ map fst entries) ->
  map fst s = map fst acc ++ map fst entries.
Proof.
  revert acc. induction entries as [|[key field] tl IH]; intros acc.
  - intros H _. injection H as <-. simpl. now rewrite app_nil_r.
  - rewrite collect_types_cons. destruct (realize field) as [t|e]; cbn [bind]; [|discriminate].
    intros H Hnd. simpl in Hnd.
    assert (Hnot : ~ In key (map fst acc)).
    { apply NoDup_remove_2 in Hnd. intros Hin. apply Hnd, in_or_app. now left. }
    rewrite (IH _ H); rewrite (map_fst_map_set_notin key t acc Hnot).
    + simpl. now rewrite <- app_assoc.
    + rewrite <- app_assoc. exact Hnd.
Qed.

(** X6.  A builder with fields hands its type constructor the error
    function and one sub-type per field: an object with the fields' keys
    (each once, in no stated order), each holding the realized type of its
    field. *)
Theorem getType_passes_field_types (b : BaseBuilder) (tc : typeCombinator) :
  NoDup (map fst (_fieldBuilders b)) ->
  _fieldBuilders b <> [] ->
  _isOptional b = false ->
  _type b = Some tc ->
  (forall key field, In (key, field) (_fieldBuilders b) -> exists t, getType field = Ok t) ->
  exists subTypes,
    getType b = tc (error_slot b) (VObj subTypes)
    /\ NoDup (map fst subTypes)
    /\ (forall key, In key (map fst subTypes) <-> In key (map fst (_fieldBuilders b)))
    /\ forall key field,
         In (key, field) (_fieldBuilders b) ->
         exists t, getType field = Ok t /\ lookup key subTypes = Some t.
Proof.
  intros Hnd Hne Hopt Htc Hall.
  destruct (collect_types_all_ok getType (_fieldBuilders b) [] Hall) as [s Hs].
  assert (Hkeys : map fst s = map fst (_fieldBuilders b))
    by now apply (collect_types_keys _ _ _ _ Hs).
  exists s. split; [|split; [|split]].
  - rewrite getType_eq, inner_type_eq, Hopt, Hs.
    destruct (_fieldBuilders b); [contradiction|].
    simpl. unfold call_type. now rewrite Htc.
  - now rewrite Hkeys.
  - intros key. now rewrite Hkeys.
  - intros key field Hin. exact (collect_types_lookup _ _ _ _ _ _ Hs Hnd Hin).
Qed.

(** ** Failures of the fields *)

Lemma collect_types_some_error realize entries (acc : obj) key field (e : exn) :
  In (key, field) entries ->
  realize field = Err e ->
  exists key' field' e',
    In (key', field') entries
    /\ realize field' = Err e'
    /\ collect_types realize entries acc = Err e'.
Proof.
  revert acc. induction entries as [|[k f] tl IH]; intros acc; [intros []|].
  intros Hin Hf. rewrite collect_types_cons.
  destruct (realize f) as [t|e0] eqn:Hhead; cbn [bind].
  - destruct Hin as [Heq|Hin]; [injection Heq as -> ->; congruence|].
    destruct (IH (map_set k t acc) Hin Hf) as (k' & f' & e' & Hin' & Hf' & Hc).
    exists k', f', e'. split; [now right | auto].
  - exists k, f, e0. split; [now left | auto].
Qed.

Lemma collect_fields_some_error realize entries (acc : obj) key field (e : exn) :
  In (key, field) entries ->
  realize field = Err e ->
  exists key' field' e',
    In (key', field') entries
    /\ realize field' = Err e'
    /\ collect_fields realize entries acc = Err e'.
Proof.
  revert acc. induction entries as [|[k f] tl IH]; intros acc; [intros []|].
  intros Hin Hf. rewrite collect_fields_cons.
  destruct (realize f) as [o|e0] eqn:Hhead; cbn [bind].
  - destruct Hin as [Heq|Hin]; [injection Heq as -> ->; congruence|].
    destruct (IH (setIn ["options"; "fields"; k] (VObj o) acc) Hin Hf)
      as (k' & f' & e' & Hin' & Hf' & Hc).
    exists k', f', e'. split; [now right | auto].
  - exists k, f, e0. split; [now left | auto].
Qed.

(** X7.  When a field cannot be realized, neither can its parent: the
    parent throws what one of its failing fields throws.  So when every
    failing field throws the same exception (when only one field fails,
    say) the parent throws that one.  This holds for [getType] as it
    stands, and for [getOptions] when the parent's own missing-provider
    check did not throw first. *)
Theorem field_failure_propagates (b : BaseBuilder)
  (key : string) (field : BaseBuilder) (e : exn) :
  In (key, field) (_fieldBuilders b) ->
  (getType field = Err e ->
   (exists key' field' e',
      In (key', field') (_fieldBuilders b)
      /\ getType field' = Err e' /\ getType b = Err e')
   /\ ((forall key' field' e',
          In (key', field') (_fieldBuilders b) -> getType field' = Err e' -> e' = e) ->
       getType b = Err e))
  /\ (forall p c,
        missing_provider b p c = false ->
        getOptions field (resolve_provider b p) (Some (resolve_disableTemplates b c))
        = Err e ->
        (exists key' field' e',
           In (key', field') (_fieldBuilders b)
           /\ getOptions field' (resolve_provider b p)
                (Some (resolve_disableTemplates b c)) = Err e'
           /\ getOptions b p c = Err e')
        /\ ((forall key' field' e',
               In (key', field') (_fieldBuilders b) ->
               getOptions field' (resolve_provider b p)
                 (Some (resolve_disableTemplates b c)) = Err e' ->
               e' = e) ->
            getOptions b p c = Err e)).
Proof.
  intros Hin. split.
  - intros Hf.
    assert (Hsome : exists key' field' e',
               In (key', field') (_fieldBuilders b)
               /\ getType field' = Err e' /\ getType b = Err e').
    { destruct (collect_types_some_error getType (_fieldBuilders b) [] key field e Hin Hf)
        as (k' & f' & e' & Hin' & Hf' & Hc).
      exists k', f', e'. split; [exact Hin'|]. split; [exact Hf'|].
      rewrite getType_eq, inner_type_eq, Hc.
      destruct (_fieldBuilders b); [destruct Hin|].
      simpl. now destruct (_isOptional b). }
    split; [exact Hsome|].
    intros Hsame. destruct Hsome as (k' & f' & e' & Hin' & Hf' & Hb).
    now rewrite <- (Hsame k' f' e' Hin' Hf').
  - intros p c Hguard Hf.
    assert (Hsome : exists key' field' e',
               In (key', field') (_fieldBuilders b)
               /\ getOptions field' (resolve_provider b p)
                    (Some (resolve_disableTemplates b c)) = Err e'
               /\ getOptions b p c = Err e').
    { destruct (collect_fields_some_error
                  (fun f => getOptions f (resolve_provider b p)
                              (Some (resolve_disableTemplates b c)))
                  (_fieldBuilders b) [] key field e Hin Hf)
        as (k' & f' & e' & Hin' & Hf' & Hc).
      exists k', f', e'. split; [exact Hin'|]. split; [exact Hf'|].
      rewrite getOptions_eq, Hguard, Hc. reflexivity. }
    split; [exact Hsome|].
    intros Hsame. destruct Hsome as (k' & f' & e' & Hin' & Hf' & Hb).
    now rewrite <- (Hsame k' f' e' Hin' Hf').
Qed.

(** ** Invariants of a chain *)

(** The three kinds of method, as in the proofs above. *)
Ltac by_kind m Hm :=
  destruct (is_SetField m) eqn:?;
  [ destruct m; try discriminate; simpl in Hm; apply setField_spec in Hm
  | destruct (is_AddSelectOption m) eqn:?;
    [ destruct m; try discriminate; simpl in Hm; apply addSelectOption_spec in Hm
    | apply invoke_plain in Hm; try assumption ] ].

Lemma invoke_exclusive (this : BaseBuilder) (m : method BaseBuilder) (b' : BaseBuilder) :
  invoke this m = Ok b' ->
  slot_ok "options" this ->
  negb (isEmpty (_fieldBuilders this)) && is_some (lookup "options" (options this)) = false ->
  negb (isEmpty (_fieldBuilders b')) && is_some (lookup "options" (options b')) = false.
Proof.
  intros H W Hex. by_kind m H.
  - destruct H as (Hguard & _ & _ & Hoth & _).
    rewrite Hoth by discriminate. rewrite <- (select_guard this W), Hguard.
    apply andb_false_r.
  - destruct H as (_ & snapshot & _ & Hfb & _). now rewrite Hfb.
  - destruct H as (Hfb & _ & Hs & _). now rewrite Hfb, Hs.
Qed.

Lemma chain_exclusive (ms : list (method BaseBuilder)) (this b' : BaseBuilder) :
  chain this ms = Ok b' ->
  well_formed this ->
  negb (isEmpty (_fieldBuilders this)) && is_some (lookup "options" (options this)) = false ->
  negb (isEmpty (_fieldBuilders b')) && is_some (lookup "options" (options b')) = false.
Proof.
  revert this. induction ms as [|m tl IH]; intros this; simpl.
  - intros H. now injection H as <-.
  - destruct (invoke this m) as [b|e] eqn:Hm; simpl; [|discriminate].
    intros H W Hex. apply (IH b H).
    + now apply (invoke_well_formed this m).
    + apply (invoke_exclusive this m b Hm); [apply W | exact Hex].
Qed.

(** X8.  No builder assembled from [new BaseBuilder()] holds both fields
    and select options, and no chain of calls that goes through contains
    both a [setField] and an [addSelectOption]: the later of the two
    throws. *)
Theorem fields_xor_select_options (ms : list (method BaseBuilder)) (b : BaseBuilder) :
  chain initialState ms = Ok b ->
  negb (isEmpty (_fieldBuilders b)) && is_some (lookup "options" (options b)) = false
  /\ existsb is_SetField ms && existsb is_AddSelectOption ms = false.
Proof.
  intros Hc.
  pose proof (chain_exclusive ms initialState b Hc well_formed_initialState eq_refl) as Hex.
  split; [exact Hex|].
  destruct (chain_flags ms initialState b Hc) as [Hsel Hfld]. simpl in Hsel, Hfld.
  now rewrite <- Hsel, <- Hfld.
Qed.

Lemma In_map_fst_map_set {V : Type} (k key : string) (v : V) (m : list (string * V)) :
  In k (map fst (map_set key v m)) <-> In k (map fst m) \/ k = key.
Proof.
  destruct (in_dec string_dec key (map fst m)) as [Hin|Hnot].
  - rewrite map_fst_map_set_in by assumption. split; [auto|].
    intros [H| ->]; assumption.
  - rewrite map_fst_map_set_notin by assumption. rewrite in_app_iff. simpl.
    split; intros [H|H]; auto; destruct H as [H|[]]; auto.
Qed.

Lemma invoke_field_keys (this : BaseBuilder) (m : method BaseBuilder) (b' : BaseBuilder) :
  invoke this m = Ok b' ->
  forall k, In k (map fst (_fieldBuilders b'))
            <-> In k (map fst (_fieldBuilders this)) \/ In k (field_keys [m]).
Proof.
  intros H k. by_kind m H.
  - destruct H as (_ & Hfb & _). rewrite Hfb, In_map_fst_map_set. simpl.
    intuition.
  - destruct H as (Hnil & snapshot & _ & Hfb & _). rewrite Hfb, Hnil. simpl. tauto.
  - destruct H as (Hfb & _). rewrite Hfb.
    destruct m; try discriminate; simpl; tauto.
Qed.

Lemma chain_field_keys (ms : list (method BaseBuilder)) (this b' : BaseBuilder) :
  chain this ms = Ok b' ->
  forall k, In k (map fst (_fieldBuilders b'))
            <-> In k (map fst (_fieldBuilders this)) \/ In k (field_keys ms).
Proof.
  revert this. induction ms as [|m tl IH]; intros this; simpl chain.
  - intros H k. injection H as <-. simpl. tauto.
  - destruct (invoke this m) as [b|e] eqn:Hm; cbn [bind]; [|discriminate].
    intros H k. rewrite (IH b H k), (invoke_field_keys this m b Hm k).
    rewrite (field_keys_cons m tl), in_app_iff. tauto.
Qed.

Lemma collect_plain_keys realize entries (F F' : obj) :
  collect_plain realize entries F = Ok F' ->
  NoDup (map fst F ++ map fst entries) ->
  map fst F' = map fst F ++ map fst entries.
Proof.
  revert F. induction entries as [|[key field] tl IH]; intros F; simpl.
  - intros H _. injection H as <-. now rewrite app_nil_r.
  - destruct (realize field) as [o|e]; simpl; [|discriminate].
    intros H Hnd.
    assert (Hnot : ~ In key (map fst F)).
    { apply NoDup_remove_2 in Hnd. intros Hin. apply Hnd, in_or_app. now left. }
    rewrite (IH _ H); rewrite (map_fst_map_set_notin key (VObj o) F Hnot).
    + now rewrite <- app_assoc.
    + rewrite <- app_assoc. exact Hnd.
Qed.

Lemma finish_options_no_fields (this : BaseBuilder) provider (d : bool) (conf : obj) :
  lookup "fields" (options this) = None ->
  finish_options this provider d [] = Ok conf ->
  lookup "fields" conf = None.
Proof.
  intros Hnone. unfold finish_options.
  destruct (match _templateProviderCallback this with
            | Some cb =>
                if negb (has_key "factory" (options this)) && negb d
                then factory <- cb provider ;;
                     Ok (mergeDeep this [("options", VObj [("factory", factory)])])
                else Ok this
            | None => Ok this
            end) as [st|e] eqn:Hst; cbn [bind]; [|discriminate].
  intros H. injection H as <-. rewrite options_mergeDeep. simpl lookup at 2.
  destruct (_templateProviderCallback this) as [cb|].
  - destruct (negb (has_key "factory" (options this)) && negb d).
    + destruct (cb provider) as [f|e]; cbn [bind] in Hst; [|discriminate].
      injection Hst as <-.
      rewrite mergeDeep_single_other by discriminate. exact Hnone.
    + now injection Hst as <-.
  - now injection Hst as <-.
Qed.

(** X9.  The fields and the order go together.  On a builder assembled from
    [new BaseBuilder()] the keys of the fields are the keys [setField] was
    called with.  The realized options have no [fields] entry when there
    is no field; otherwise [fields] has one entry per field (each key
    once, in no stated order), and a key is in [fields] exactly when it is
    in [order]. *)
Theorem fields_follow_order (ms : list (method BaseBuilder)) (b : BaseBuilder) :
  chain initialState ms = Ok b ->
  (forall k, In k (map fst (_fieldBuilders b)) <-> In k (field_keys ms))
  /\ forall p c conf,
       getOptions b p c = Ok conf ->
       (field_keys ms = [] -> lookup "fields" conf = None)
       /\ (field_keys ms <> [] ->
           exists F,
             lookup "fields" conf = Some (VObj F)
             /\ NoDup (map fst F)
             /\ (forall k, In k (map fst F) <-> In k (map fst (_fieldBuilders b)))
             /\ forall k, In k (map fst F) <-> In (VStr k) (list_slot "order" conf)).
Proof.
  intros Hc.
  pose proof (chain_well_formed ms initialState b Hc well_formed_initialState)
    as (_ & _ & Wfields & Wnd).
  assert (Hkeys : forall k, In k (map fst (_fieldBuilders b)) <-> In k (field_keys ms)).
  { intros k. rewrite (chain_field_keys ms initialState b Hc k). simpl. tauto. }
  split; [exact Hkeys|].
  intros p c conf Hconf.
  assert (Horder : list_slot "order" conf = map VStr (field_keys ms)).
  { unfold list_slot.
    rewrite (getOptions_lookup_other b p c conf "order") by (discriminate || assumption).
    apply (chain_order ms initialState b Hc). }
  rewrite getOptions_eq in Hconf.
  destruct (missing_provider b p c); [discriminate|].
  destruct (collect_fields _ (_fieldBuilders b) []) as [fields|e] eqn:Hf;
    cbn [bind] in Hconf; [|discriminate].
  split.
  - intros Hnone.
    assert (Hnil : _fieldBuilders b = []).
    { destruct (_fieldBuilders b) as [|[k f] tl]; [reflexivity|].
      exfalso. destruct (Hkeys k) as [Hin _]. rewrite Hnone in Hin.
      apply Hin. now left. }
    rewrite Hnil in Hf. simpl in Hf. injection Hf as <-.
    eapply finish_options_no_fields; eassumption.
  - intros Hne. apply collect_fields_shape in Hf.
    destruct Hf as [[Hnil _]|[F [-> HF]]].
    + exfalso. apply Hne. destruct (field_keys ms) as [|k tl]; [reflexivity|].
      destruct (Hkeys k) as [_ Hin]. rewrite Hnil in Hin. destruct Hin. now left.
    + exists F. split; [eapply finish_options_fields; eassumption|].
      assert (HkF : map fst F = map fst (_fieldBuilders b))
        by (apply (collect_plain_keys _ _ _ _ HF); exact Wnd).
      split; [now rewrite HkF|]. split; [intros k; now rewrite HkF|].
      intros k. rewrite HkF, Horder, Hkeys. split.
      * intros Hin. now apply in_map.
      * intros Hin. apply in_map_iff in Hin. destruct Hin as (k' & Heq & Hin).
        now injection Heq as ->.
Qed.

(** ** Select options in a chain *)

Lemma select_snapshots_cons (m : method BaseBuilder) (tl : list (method BaseBuilder)) :
  select_snapshots (m :: tl) = select_snapshots [m] ++ select_snapshots tl.
Proof. destruct m; reflexivity. Qed.

Lemma invoke_select_options (this : BaseBuilder) (m : method BaseBuilder) (b' : BaseBuilder) :
  invoke this m = Ok b' ->
  list_slot "options" (options b')
  = list_slot "options" (options this) ++ select_snapshots [m].
Proof.
  intros H. by_kind m H.
  - destruct H as (_ & _ & _ & Hoth & _).
    unfold list_slot. rewrite Hoth by discriminate. simpl. now rewrite app_nil_r.
  - destruct H as (_ & snapshot & Hsnap & _ & Hopt & _).
    unfold list_slot at 1. rewrite Hopt. simpl. now rewrite Hsnap.
  - destruct H as (_ & _ & Hs & _).
    unfold list_slot. rewrite Hs.
    destruct m; try discriminate; simpl; now rewrite app_nil_r.
Qed.

(** X10.  The select options of a builder are the snapshots its
    [addSelectOption] calls took, in call order, after those it had: each
    call appends one, no other method touches the list, and the realized
    [options] is that list. *)
Theorem select_options_accumulate (ms : list (method BaseBuilder)) (this b' : BaseBuilder) :
  chain this ms = Ok b' ->
  list_slot "options" (options b')
  = list_slot "options" (options this) ++ select_snapshots ms
  /\ forall p c conf,
       getOptions b' p c = Ok conf ->
       list_slot "options" conf
       = list_slot "options" (options this) ++ select_snapshots ms.
Proof.
  intros Hc.
  assert (Hst : list_slot "options" (options b')
                = list_slot "options" (options this) ++ select_snapshots ms).
  { revert this Hc. induction ms as [|m tl IH]; intros this; simpl chain.
    - intros H. injection H as <-. simpl. now rewrite app_nil_r.
    - destruct (invoke this m) as [b|e] eqn:Hm; cbn [bind]; [|discriminate].
      intros H. rewrite (IH b H), (invoke_select_options this m b Hm).
      now rewrite (select_snapshots_cons m tl), app_assoc. }
  split; [exact Hst|].
  intros p c conf Hconf. rewrite <- Hst. unfold list_slot.
  now rewrite (getOptions_lookup_other b' p c conf "options") by (discriminate || assumption).
Qed.

(** ** The null option *)

Lemma lookup_merge_obj_absent (k : string) (n m : obj) :
  lookup k n = None -> lookup k (merge_obj m n) = lookup k m.
Proof.
  revert m. induction n as [|[k' x] tl IH]; intros m; simpl; [reflexivity|].
  destruct (String.eqb_spec k k') as [->|Hk]; [discriminate|].
  intros Hn. rewrite IH by assumption. now apply lookup_map_set_neq.
Qed.

Lemma setNullOption_spec (this opt b' : BaseBuilder) :
  setNullOption this opt = Ok b' ->
  exists snapshot,
    getOptions opt None None = Ok snapshot
    /\ lookup "nullOption" (options b')
       = Some (match lookup "nullOption" (options this) with
               | Some e => merge_val e (VObj snapshot)
               | None => VObj snapshot
               end).
Proof.
  unfold setNullOption.
  destruct (getOptions opt None None) as [snapshot|e]; cbn [bind]; [|discriminate].
  intros H. injection H as <-. exists snapshot. split; [reflexivity|].
  apply lookup_mergeDeep_single.
Qed.

(** X11.  [setNullOption(opt)] realizes [opt.getOptions()] at once and
    stores the snapshot under [nullOption].  A second [setNullOption] does
    not replace the first: the two snapshots are merged, key by key, so a
    key the second option lacks keeps the value of the first. *)
Theorem setNullOption_merges (this opt1 opt2 b1 b2 : BaseBuilder) :
  lookup "nullOption" (options this) = None ->
  setNullOption this opt1 = Ok b1 ->
  setNullOption b1 opt2 = Ok b2 ->
  exists s1 s2,
    getOptions opt1 None None = Ok s1
    /\ getOptions opt2 None None = Ok s2
    /\ (forall p c conf,
          getOptions b1 p c = Ok conf -> lookup "nullOption" conf = Some (VObj s1))
    /\ (forall p c conf,
          getOptions b2 p c = Ok conf ->
          lookup "nullOption" conf = Some (VObj (merge_obj s1 s2))
          /\ forall k, lookup k s2 = None ->
                       getIn ["nullOption"; k] (VObj conf) = getIn [k] (VObj s1)).
Proof.
  intros Hnone H1 H2.
  apply setNullOption_spec in H1. destruct H1 as (s1 & Hs1 & Hl1). rewrite Hnone in Hl1.
  apply setNullOption_spec in H2. destruct H2 as (s2 & Hs2 & Hl2).
  rewrite Hl1, merge_val_obj in Hl2.
  exists s1, s2. split; [exact Hs1|]. split; [exact Hs2|]. split.
  - intros p c conf Hconf.
    now rewrite (getOptions_lookup_other b1 p c conf "nullOption")
      by (discriminate || assumption).
  - intros p c conf Hconf.
    assert (Hl : lookup "nullOption" conf = Some (VObj (merge_obj s1 s2))).
    { now rewrite (getOptions_lookup_other b2 p c conf "nullOption")
        by (discriminate || assumption). }
    split; [exact Hl|].
    intros k Hk. simpl. rewrite Hl. now rewrite (lookup_merge_obj_absent k s2 s1 Hk).
Qed.

(** ** Placeholder and autofocus *)

Lemma set_attr (b : BaseBuilder) (key : string) (x : jsval) :
  attrs_not_list b ->
  is_collection x = false ->
  exists m',
    lookup "attrs" (options (mergeDeep b [("options", VObj [("attrs", VObj [(key, x)])])]))
    = Some (VObj m')
    /\ lookup key m' = Some x
    /\ forall k, k <> key ->
         lookup k m' = match lookup "attrs" (options b) with
                       | Some (VObj m) => lookup k m
                       | _ => None
                       end.
Proof.
  unfold attrs_not_list. intros Hnot Hx. rewrite lookup_mergeDeep_single.
  destruct (lookup "attrs" (options b)) as [[| | | | | |m|l]|];
    try contradiction;
    try (exists [(key, x)]; split; [reflexivity|]; split;
         [simpl; now rewrite String.eqb_refl
         |intros k Hk; simpl; now destruct (String.eqb_spec k key)]).
  exists (map_set key (match lookup key m with
                       | Some e => merge_val e x
                       | None => x
                       end) m).
  split; [now rewrite merge_val_obj|]. split.
  - rewrite lookup_map_set_eq.
    destruct (lookup key m); [now rewrite merge_val_scalar | reflexivity].
  - intros k Hk. now apply lookup_map_set_neq.
Qed.

Lemma set_attr_keeps (b : BaseBuilder) (key : string) (x : jsval) :
  attrs_not_list b ->
  is_collection x = false ->
  attrs_not_list (mergeDeep b [("options", VObj [("attrs", VObj [(key, x)])])]).
Proof.
  intros Hnot Hx. destruct (set_attr b key x Hnot Hx) as (m' & Hm' & _).
  unfold attrs_not_list. now rewrite Hm'.
Qed.

(** X12.  [setPlaceholder] and [setAutoFocus] share the [attrs] entry
    without clobbering each other: in either order the realized [attrs]
    holds both the placeholder and the autofocus flag. *)
Theorem placeholder_and_autoFocus_coexist (b : BaseBuilder) (placeholder autoFocus : jsval) :
  attrs_not_list b ->
  is_collection placeholder = false ->
  is_collection autoFocus = false ->
  (forall p c conf,
     getOptions (setAutoFocus (setPlaceholder b placeholder) autoFocus) p c = Ok conf ->
     getIn ["attrs"; "placeholder"] (VObj conf) = placeholder
     /\ getIn ["attrs"; "autoFocus"] (VObj conf) = autoFocus)
  /\ (forall p c conf,
        getOptions (setPlaceholder (setAutoFocus b autoFocus) placeholder) p c = Ok conf ->
        getIn ["attrs"; "placeholder"] (VObj conf) = placeholder
        /\ getIn ["attrs"; "autoFocus"] (VObj conf) = autoFocus).
Proof.
  intros Hnot Hp Ha. split; intros p c conf Hconf.
  - pose proof (set_attr_keeps b "placeholder" placeholder Hnot Hp) as Hnot1.
    destruct (set_attr b "placeholder" placeholder Hnot Hp) as (m1 & Hm1 & Hp1 & _).
    destruct (set_attr _ "autoFocus" autoFocus Hnot1 Ha) as (m2 & Hm2 & Ha2 & Hoth2).
    fold (setPlaceholder b placeholder) in Hm1, Hm2, Hoth2.
    fold (setAutoFocus (setPlaceholder b placeholder) autoFocus) in Hm2.
    rewrite Hm1 in Hoth2.
    simpl. rewrite (getOptions_lookup_other _ p c conf "attrs") by (discriminate || eassumption).
    rewrite Hm2, Ha2, (Hoth2 "placeholder") by discriminate. now rewrite Hp1.
  - pose proof (set_attr_keeps b "autoFocus" autoFocus Hnot Ha) as Hnot1.
    destruct (set_attr b "autoFocus" autoFocus Hnot Ha) as (m1 & Hm1 & Ha1 & _).
    destruct (set_attr _ "placeholder" placeholder Hnot1 Hp) as (m2 & Hm2 & Hp2 & Hoth2).
    fold (setAutoFocus b autoFocus) in Hm1, Hm2, Hoth2.
    fold (setPlaceholder (setAutoFocus b autoFocus) placeholder) in Hm2.
    rewrite Hm1 in Hoth2.
    simpl. rewrite (getOptions_lookup_other _ p c conf "attrs") by (discriminate || eassumption).
    rewrite Hm2, Hp2, (Hoth2 "autoFocus") by discriminate. now rewrite Ha1.
Qed.

(** ** Setters on different keys *)

Lemma invoke_option_entry (m : method BaseBuilder) (k : string) (v : jsval) :
  option_entry m = Some (k, v) ->
  forall b, invoke b m = Ok (mergeDeep b [("options", VObj [(k, v)])]).
Proof.
  destruct m; simpl; try discriminate; intros H; injection H as <- <-;
    intros b; reflexivity.
Qed.

Lemma obj_equiv_map_set (m m' : obj) (k : string) (v : jsval) :
  obj_equiv m m' -> obj_equiv (map_set k v m) (map_set k v m').
Proof.
  intros H k0. destruct (string_dec k0 k) as [->|Hne].
  - now rewrite !lookup_map_set_eq.
  - rewrite !lookup_map_set_neq by assumption. apply H.
Qed.

Lemma merge_obj_equiv (n m m' : obj) :
  obj_equiv m m' -> obj_equiv (merge_obj m n) (merge_obj m' n).
Proof.
  revert m m'. induction n as [|[k x] tl IH]; intros m m' H; simpl; [exact H|].
  apply IH. rewrite (H k). now apply obj_equiv_map_set.
Qed.

Lemma merge_single_commute (m : obj) (k1 k2 : string) (v1 v2 : jsval) :
  k1 <> k2 ->
  obj_equiv (merge_obj (merge_obj m [(k1, v1)]) [(k2, v2)])
            (merge_obj (merge_obj m [(k2, v2)]) [(k1, v1)]).
Proof.
  intros Hne k. simpl.
  rewrite (lookup_map_set_neq k1 k2) by congruence.
  rewrite (lookup_map_set_neq k2 k1) by congruence.
  destruct (string_dec k k1) as [->|H1]; [|destruct (string_dec k k2) as [->|H2]].
  - rewrite (lookup_map_set_neq k2 k1) by congruence. now rewrite !lookup_map_set_eq.
  - rewrite (lookup_map_set_neq k1 k2) by congruence. now rewrite !lookup_map_set_eq.
  - now rewrite !lookup_map_set_neq by assumption.
Qed.

Lemma has_key_equiv (m m' : obj) (k : string) :
  obj_equiv m m' -> has_key k m = has_key k m'.
Proof. intros H. unfold has_key. now rewrite (H k). Qed.

Lemma options_mergeDeep_equiv (b b' : BaseBuilder) (source : obj) :
  obj_equiv (options b) (options b') ->
  obj_equiv (options (mergeDeep b source)) (options (mergeDeep b' source)).
Proof.
  intros H. rewrite !options_mergeDeep.
  destruct (lookup "options" source) as [[]|]; try exact H. now apply merge_obj_equiv.
Qed.

(** Builders that differ only by the order of the keys of their options
    realize alike. *)
Lemma getOptions_equiv (b b' : BaseBuilder) p c :
  _fieldBuilders b' = _fieldBuilders b ->
  _templateProviderCallback b' = _templateProviderCallback b ->
  _lazyTemplateProvider b' = _lazyTemplateProvider b ->
  _disableTemplates b' = _disableTemplates b ->
  obj_equiv (options b) (options b') ->
  result_equiv (getOptions b p c) (getOptions b' p c).
Proof.
  intros Hfb Hcb Hpr Hdt Hop. rewrite !getOptions_eq.
  unfold missing_provider, resolve_provider, resolve_disableTemplates.
  rewrite Hfb, Hcb, Hpr, Hdt, <- (has_key_equiv _ _ "factory" Hop).
  destruct (negb (has_key "factory" (options b)) && is_some (_templateProviderCallback b)
            && negb (is_some match p with Some p0 => Some p0
                                        | None => _lazyTemplateProvider b end)
            && negb match c with Some d => d | None => _disableTemplates b end);
    [reflexivity|].
  destruct (collect_fields _ (_fieldBuilders b) []) as [fields|e]; cbn [bind]; [|reflexivity].
  unfold finish_options. rewrite Hcb, <- (has_key_equiv _ _ "factory" Hop).
  destruct (_templateProviderCallback b) as [cb|]; cbn [bind].
  - destruct (negb (has_key "factory" (options b)) && negb _); cbn [bind].
    + destruct (cb _) as [f|e]; cbn [bind]; [|reflexivity].
      simpl. now do 2 apply options_mergeDeep_equiv.
    + simpl. now apply options_mergeDeep_equiv.
  - simpl. now apply options_mergeDeep_equiv.
Qed.

Lemma getType_reads (b b' : BaseBuilder) :
  _fieldBuilders b' = _fieldBuilders b ->
  _isOptional b' = _isOptional b ->
  _type b' = _type b ->
  lookup "error" (options b') = lookup "error" (options b) ->
  getType b' = getType b.
Proof.
  intros Hfb Hopt Hty Herr. rewrite !getType_eq, !inner_type_eq.
  unfold call_type, error_slot. now rewrite Hfb, Hopt, Hty, Herr.
Qed.

(** X13.  Two plain setters that write scalars (or functions) under
    different keys of the options can be called in either order: both
    orders return, the two builders hold the two values and the same value
    under every key, realize the same type, and their realized options
    agree on every key (or both throw the same exception). *)
Theorem setters_on_different_keys_commute
  (m1 m2 : method BaseBuilder) (k1 k2 : string) (v1 v2 : jsval) (b : BaseBuilder) :
  option_entry m1 = Some (k1, v1) ->
  option_entry m2 = Some (k2, v2) ->
  k1 <> k2 ->
  is_collection v1 = false ->
  is_collection v2 = false ->
  exists b12 b21,
    chain b [m1; m2] = Ok b12
    /\ chain b [m2; m1] = Ok b21
    /\ lookup k1 (options b12) = Some v1
    /\ lookup k2 (options b12) = Some v2
    /\ obj_equiv (options b12) (options b21)
    /\ getType b12 = getType b21
    /\ forall p c, result_equiv (getOptions b12 p c) (getOptions b21 p c).
Proof.
  intros H1 H2 Hne Hs1 Hs2.
  pose proof (invoke_option_entry m1 k1 v1 H1) as Hv1.
  pose proof (invoke_option_entry m2 k2 v2 H2) as Hv2.
  exists (mergeDeep (mergeDeep b [("options", VObj [(k1, v1)])]) [("options", VObj [(k2, v2)])]),
         (mergeDeep (mergeDeep b [("options", VObj [(k2, v2)])]) [("options", VObj [(k1, v1)])]).
  assert (Heq : obj_equiv
                  (options (mergeDeep (mergeDeep b [("options", VObj [(k1, v1)])])
                              [("options", VObj [(k2, v2)])]))
                  (options (mergeDeep (mergeDeep b [("options", VObj [(k2, v2)])])
                              [("options", VObj [(k1, v1)])]))).
  { apply (merge_single_commute (options b) k1 k2 v1 v2 Hne). }
  assert (Hset : forall st k v, is_collection v = false ->
            lookup k (options (mergeDeep st [("options", VObj [(k, v)])])) = Some v).
  { intros st k v Hv. rewrite lookup_mergeDeep_single.
    destruct (lookup k (options st)); [now rewrite merge_val_scalar | reflexivity]. }
  split; [simpl; rewrite Hv1; simpl; now rewrite Hv2|].
  split; [simpl; rewrite Hv2; simpl; now rewrite Hv1|].
  split; [rewrite (Heq k1); now apply Hset|].
  split; [now apply Hset|].
  split; [exact Heq|]. split.
  - apply getType_reads; try reflexivity. exact (Heq "error").
  - intros p c. apply getOptions_equiv; try reflexivity. exact Heq.
Qed.

(** ** Type and options are separate *)

Lemma push_option_slots (this : BaseBuilder) (key : string) (x : jsval) (b' : BaseBuilder) :
  push_option this key x = Ok b' ->
  _isOptional b' = _isOptional this /\ _type b' = _type this.
Proof.
  unfold push_option. destruct (lookup key (options this)) as [[]|]; try discriminate;
    intros H; injection H as <-; auto.
Qed.

Lemma getType_after_merge (b : BaseBuilder) (key : string) (v : jsval) :
  key <> "error" ->
  getType (mergeDeep b [("options", VObj [(key, v)])]) = getType b.
Proof.
  intros Hk. apply getType_reads; try apply mergeDeep_state.
  apply mergeDeep_single_other. congruence.
Qed.

(** X14.  The type and the options do not interfere.  Only [setType],
    [setTypeAndValidate], [makeOptional], [setField] and the two error
    setters can change what [getType] returns; and [setType],
    [setTypeAndValidate] and [makeOptional] never change what [getOptions]
    returns. *)
Theorem type_and_options_are_separate (b : BaseBuilder) :
  (forall m b', type_method m = false -> invoke b m = Ok b' -> getType b' = getType b)
  /\ (forall tc type name p c,
        getOptions (setType b tc) p c = getOptions b p c
        /\ getOptions (setTypeAndValidate b type name) p c = getOptions b p c
        /\ getOptions (makeOptional b) p c = getOptions b p c).
Proof.
  split.
  - intros m b' Hm H.
    destruct m; try discriminate; simpl in H;
      try (injection H as <-;
           first [ apply getType_after_merge; discriminate
                 | apply getType_reads; reflexivity ]).
    + unfold addSelectOption in H.
      destruct (negb (isEmpty (_fieldBuilders b))); [discriminate|].
      destruct (getOptions selectBuilder None None); cbn [bind] in H; [|discriminate].
      destruct (push_option_slots _ _ _ _ H) as [Hopt Hty].
      apply push_option_spec in H. destruct H as (_ & Hoth & Hfb & _).
      apply getType_reads; try assumption. apply Hoth. discriminate.
    + unfold setNullOption in H.
      destruct (getOptions selectBuilder None None); cbn [bind] in H; [|discriminate].
      injection H as <-. apply getType_after_merge. discriminate.
  - intros tc type name p c. repeat split; now apply getOptions_reads.
Qed.

(** ** Several error functions *)

Lemma add_errors_existing (gs : list nat) (b : BaseBuilder) (n : nat) :
  (forall l, exists r, combine l = VRef r) ->
  lookup "error" (options b) = Some (VRef n) ->
  exists b',
    chain b (add_errors gs) = Ok b'
    /\ lookup "error" (options b')
       = Some (fold_left (fun acc g => combine [acc; VRef g]) gs (VRef n)).
Proof.
  intros Hcomb. revert b n. induction gs as [|g tl IH]; intros b n Hn.
  - exists b. split; [reflexivity | exact Hn].
  - simpl chain. cbn [bind].
    destruct (Hcomb [VRef n; VRef g]) as [r Hr].
    destruct (IH (addValidationErrorMessageFn b (VRef g)) r) as (b' & Hc & Hl).
    { rewrite (addValidationErrorMessageFn_existing b n (VRef g) Hn). now rewrite Hr. }
    exists b'. split; [exact Hc|]. simpl fold_left. now rewrite Hr.
Qed.

(** X15.  Error functions pile up from the left: when [combine] returns a
    function, adding [f], [g1], [g2], ... to a builder with no error
    function realizes [combine([... combine([combine([f, g1]), g2]) ...])];
    the first one is stored as it is. *)
Theorem error_functions_accumulate (b : BaseBuilder) (f : nat) (gs : list nat) :
  (forall l, exists r, combine l = VRef r) ->
  lookup "error" (options b) = None ->
  exists b',
    chain b (add_errors (f :: gs)) = Ok b'
    /\ forall p c conf,
         getOptions b' p c = Ok conf ->
         lookup "error" conf
         = Some (fold_left (fun acc g => combine [acc; VRef g]) gs (VRef f)).
Proof.
  intros Hcomb Hnone.
  destruct (add_errors_existing gs (addValidationErrorMessageFn b (VRef f)) f Hcomb)
    as (b' & Hc & Hl).
  { unfold addValidationErrorMessageFn. rewrite Hnone. simpl.
    apply setValidationErrorMessageFn_ref. }
  exists b'. split; [exact Hc|].
  intros p c conf Hconf.
  now rewrite (getOptions_lookup_other b' p c conf "error") by (discriminate || assumption).
Qed.

(** ** A template callback below a root without provider *)

(** X16.  A field with a template callback, no concrete factory and no
    provider of its own makes the realization of its parent throw the
    missing-provider error, when the parent has no provider to pass down,
    templates are not disabled, and no field fails in another way. *)
Theorem getOptions_missing_provider_below (b : BaseBuilder)
  (key : string) (field : BaseBuilder) (p : option Provider) (c : option bool) :
  In (key, field) (_fieldBuilders b) ->
  missing_provider b p c = false ->
  resolve_provider b p = None ->
  resolve_disableTemplates b c = false ->
  _templateProviderCallback field <> None ->
  has_key "factory" (options field) = false ->
  _lazyTemplateProvider field = None ->
  (forall key' field' e,
     In (key', field') (_fieldBuilders b) ->
     getOptions field' None (Some false) = Err e ->
     e = JsError msg_no_provider) ->
  getOptions b p c = Err (JsError msg_no_provider).
Proof.
  intros Hin Hguard Hprov Hdis Hcb Hfac Hown Hsame.
  assert (Hfield : getOptions field None (Some false) = Err (JsError msg_no_provider)).
  { rewrite getOptions_eq.
    assert (Hm : missing_provider field None (Some false) = true).
    { apply missing_provider_spec. unfold resolve_provider. auto. }
    now rewrite Hm. }
  destruct (collect_fields_some_error
              (fun f => getOptions f None (Some false))
              (_fieldBuilders b) [] key field _ Hin Hfield)
    as (k' & f' & e' & Hin' & Hf' & Hc).
  rewrite getOptions_eq, Hguard, Hprov, Hdis, Hc.
  now rewrite (Hsame k' f' e' Hin' Hf').
Qed.

End More.

(** * The further properties on the samples *)

Lemma getType_uses_latest_error_sample :
  getType (H := sample)
    (setValidationErrorMessageFn (H := sample)
       (setType initialState (fun error _ => Ok error)) (VRef 5))
  = Ok (VRef 5).
Proof.
  apply (proj1 (@getType_uses_latest_error sample initialState
                  (fun error _ => Ok error) 5 eq_refl eq_refl)).
Defined.

Lemma setTypeAndValidate_realized_sample :
  getType (H := sample) (setTypeAndValidate (H := sample) initialState (VRef 3) (VStr "T"))
  = Ok (VObj [("type", VRef 3); ("error", VUndefined); ("name", VStr "T")]).
Proof.
  apply (@setTypeAndValidate_realized sample initialState (VRef 3) (VStr "T") eq_refl).
  intros key field [].
Defined.

Lemma getType_passes_field_types_sample :
  exists subTypes,
    getType (H := sample) sample_struct = Ok (VObj subTypes)
    /\ lookup "a" subTypes = Some (VRef 1)
    /\ lookup "b" subTypes = Some (VRef 1)
    /\ forall key, In key (map fst subTypes) <-> In key ["a"; "b"].
Proof.
  destruct (@getType_passes_field_types sample sample_struct
              (fun error subTypes => (fun _ s => Ok s) error subTypes))
    as (subTypes & Hty & _ & Hkeys & Hall).
  - constructor; [simpl; intros [H|[]]; discriminate|].
    constructor; [intros []|constructor].
  - discriminate.
  - reflexivity.
  - reflexivity.
  - intros key field [H|[H|[]]]; injection H as <- <-; eexists; reflexivity.
  - exists subTypes. split; [exact Hty|].
    destruct (Hall "a" sample_leaf (or_introl eq_refl)) as (ta & Hta & Hla).
    destruct (Hall "b" sample_leaf (or_intror (or_introl eq_refl))) as (tb & Htb & Hlb).
    injection Hta as <-. injection Htb as <-.
    split; [exact Hla|]. split; [exact Hlb | exact Hkeys].
Defined.

Lemma field_failure_propagates_sample :
  getType (H := sample) sample_broken = Err JsTypeError.
Proof.
  apply (proj1 (@field_failure_propagates sample sample_broken
                  "x" initialState JsTypeError (or_intror (or_introl eq_refl)))
           eq_refl).
  intros key' field' e' [H|[H|[]]]; injection H as <- <-; simpl; intros He;
    [discriminate | now injection He as <-].
Defined.

Lemma fields_xor_select_options_sample :
  negb (isEmpty (_fieldBuilders sample_one_field))
  && is_some (lookup "options" (options sample_one_field)) = false
  /\ existsb is_SetField [SetField "a" sample_leaf]
     && existsb is_AddSelectOption [SetField "a" sample_leaf] = false.
Proof.
  exact (@fields_xor_select_options sample [SetField "a" sample_leaf]
           sample_one_field eq_refl).
Defined.

Lemma fields_follow_order_sample :
  exists F,
    lookup "fields" (options_of (getOptions (H := sample) sample_ab None None))
    = Some (VObj F)
    /\ forall k, In k (map fst F) <-> In k ["a"; "b"].
Proof.
  destruct (proj2 (@fields_follow_order sample
                     [SetField "a" sample_leaf; SetField "b" sample_leaf]
                     sample_ab eq_refl)
              None None (options_of (getOptions (H := sample) sample_ab None None)) eq_refl)
    as [_ Hfields].
  destruct (Hfields ltac:(discriminate)) as (F & HF & _ & Hkeys & _).
  exists F. split; [exact HF | exact Hkeys].
Defined.

Lemma select_options_accumulate_sample :
  list_slot "options" (options sample_two_selects)
  = [VObj [("value", VBool true); ("text", VStr "Yes")]; VObj [("value", VBool false)]].
Proof.
  apply (proj1 (@select_options_accumulate sample
                  [AddSelectOption sample_yes; SetLabel (VStr "Pick");
                   AddSelectOption sample_no]
                  initialState sample_two_selects eq_refl)).
Defined.

Lemma setNullOption_merges_sample :
  getIn ["nullOption"; "text"]
    (VObj (options_of (getOptions (H := sample) sample_null2 None None)))
  = VStr "Yes"
  /\ getIn ["nullOption"; "value"]
       (VObj (options_of (getOptions (H := sample) sample_null2 None None)))
     = VBool false.
Proof.
  split; [|reflexivity].
  destruct (@setNullOption_merges sample initialState sample_yes sample_no
              sample_null1 sample_null2 eq_refl eq_refl eq_refl)
    as (s1 & s2 & Hs1 & Hs2 & _ & Hmerged).
  injection Hs1 as <-. injection Hs2 as <-.
  destruct (Hmerged None None
              (options_of (getOptions (H := sample) sample_null2 None None)) eq_refl)
    as [_ Hkeep].
  exact (Hkeep "text" eq_refl).
Defined.

Lemma placeholder_and_autoFocus_coexist_sample :
  getIn ["attrs"; "placeholder"]
    (VObj (options_of
             (getOptions (H := sample)
                (setAutoFocus (H := sample)
                   (setPlaceholder (H := sample) initialState (VStr "Name")) (VBool true))
                None None)))
  = VStr "Name"
  /\ getIn ["attrs"; "autoFocus"]
       (VObj (options_of
                (getOptions (H := sample)
                   (setAutoFocus (H := sample)
                      (setPlaceholder (H := sample) initialState (VStr "Name")) (VBool true))
                   None None)))
     = VBool true.
Proof.
  apply (proj1 (@placeholder_and_autoFocus_coexist sample initialState
                  (VStr "Name") (VBool true) I eq_refl eq_refl) None None).
  reflexivity.
Defined.

Lemma setters_on_different_keys_commute_sample :
  exists b12 b21,
    chain (H := sample) initialState [SetLabel (VStr "L"); SetName (VStr "N")] = Ok b12
    /\ chain (H := sample) initialState [SetName (VStr "N"); SetLabel (VStr "L")] = Ok b21
    /\ lookup "label" (options b12) = Some (VStr "L")
    /\ lookup "name" (options b12) = Some (VStr "N")
    /\ obj_equiv (options b12) (options b21)
    /\ getType (H := sample) b12 = getType (H := sample) b21
    /\ forall p c,
         result_equiv (getOptions (H := sample) b12 p c) (getOptions (H := sample) b21 p c).
Proof.
  apply (@setters_on_different_keys_commute sample
           (SetLabel (VStr "L")) (SetName (VStr "N")) "label" "name"
           (VStr "L") (VStr "N") initialState eq_refl eq_refl);
    [discriminate | reflexivity | reflexivity].
Defined.

Lemma error_functions_accumulate_sample :
  exists b',
    chain (H := sample_refs) initialState (add_errors [1; 2; 3]) = Ok b'
    /\ forall p c conf,
         getOptions (H := sample_refs) b' p c = Ok conf ->
         lookup "error" conf = Some (VRef 102).
Proof.
  apply (@error_functions_accumulate sample_refs initialState 1 [2; 3]).
  - intros l. eexists. reflexivity.
  - reflexivity.
Defined.

Lemma getOptions_missing_provider_below_sample :
  getOptions (H := sample) sample_unprovided None None = Err (JsError msg_no_provider).
Proof.
  apply (@getOptions_missing_provider_below sample sample_unprovided
           "f" sample_templated None None (or_introl eq_refl));
    try reflexivity; try discriminate.
  intros key' field' e [H|[]]. injection H as <- <-. simpl. intros He.
  now injection He as <-.
Defined.
